(** * Blueprint validator (scripts/validate.py): shallow embedding and checked properties

    The embedding follows [BlueprintValidator] method by method.  The two
    diagnostic lists of the validator object are threaded explicitly, Python
    exceptions are an explicit outcome, and the YAML loader (PyYAML's
    [safe_load]) is an external collaborator: a document enters the model as
    the text read from the file together with what the loader returned for it.
    Console output ([print]) carries no information the validator reads back
    and is left out. *)

From Stdlib Require Import String Ascii List ZArith Lia Bool Floats.SpecFloat DecimalString.
Import ListNotations.
Open Scope string_scope.
Open Scope list_scope.

(** ** Python [str] operations used by the validator

    A Python [str] is a sequence of code points; the model keeps the code
    points below 256, one per [ascii]. *)

Module PyStr.

(** [str.isspace] on a code point below 256, which is what the argument-less
    [strip] and [lstrip] remove. *)
Definition isspace (c : ascii) : bool :=
  let n := N_of_ascii c in
  (((9 <=? n) && (n <=? 13)) || ((28 <=? n) && (n <=? 32))
   || (n =? 133) || (n =? 160))%N.

Fixpoint lstrip (s : string) : string :=
  match s with
  | String c t => if isspace c then lstrip t else s
  | EmptyString => EmptyString
  end.

(** [s.rstrip()]: a character is dropped when it is white space and
    everything after it is dropped as well. *)
Fixpoint rstrip (s : string) : string :=
  match s with
  | EmptyString => EmptyString
  | String c t =>
      match rstrip t with
      | EmptyString => if isspace c then EmptyString else String c EmptyString
      | r => String c r
      end
  end.

Definition strip (s : string) : string := rstrip (lstrip s).

(** [s.startswith(p)] *)
Fixpoint startswith (s p : string) : bool :=
  match p, s with
  | EmptyString, _ => true
  | String a p', String b s' => Ascii.eqb a b && startswith s' p'
  | String _ _, EmptyString => false
  end.

(** [p in s] for two strings: some suffix of [s] starts with [p]. *)
Fixpoint contains (p s : string) : bool :=
  startswith s p
  || match s with
     | EmptyString => false
     | String _ t => contains p t
     end.

Fixpoint rev_string (s : string) : string :=
  match s with
  | EmptyString => EmptyString
  | String c t => rev_string t ++ String c EmptyString
  end.

(** [s.endswith(p)] *)
Definition endswith (s p : string) : bool :=
  startswith (rev_string s) (rev_string p).

(** [s.split('\n')]: cut at every line feed; always at least one piece. *)
Fixpoint split_lines (s : string) : list string :=
  match s with
  | EmptyString => [EmptyString]
  | String c t =>
      if Ascii.eqb c "010"%char then EmptyString :: split_lines t
      else match split_lines t with
           | l :: ls => String c l :: ls
           | [] => [String c EmptyString]
           end
  end.

(** [sep.join(items)] on a list of strings. *)
Fixpoint join (sep : string) (items : list string) : string :=
  match items with
  | [] => EmptyString
  | [x] => x
  | x :: rest => x ++ sep ++ join sep rest
  end.

(** [str(n)] for an [int]. *)
Definition str_of_int (z : Z) : string :=
  NilEmpty.string_of_int (Z.to_int z).

(** [len(s)] *)
Definition len (s : string) : Z := Z.of_nat (String.length s).

End PyStr.

(** ** Values built by the loader

    [yaml.safe_load] returns [None], [bool], [int], [float], [str], [bytes]
    (binary), [date]/[datetime] (timestamp), [list] (seq, and omap/pairs as a
    list of 2-tuples), [dict] (map, in insertion order) and [set].  The three
    registered constructors [!input], [!include] and [!secret] return a plain
    [str]. *)

#[local] Set Warnings "-register-all".
Inductive value : Type :=
| VNone
| VBool (b : bool)
| VInt (z : Z)
| VFloat (f : spec_float)
| VStr (s : string)
| VBytes (b : string)
| VTimestamp (iso : string)
| VList (items : list value)
| VTuple (items : list value)
| VSet (items : list value)
| VDict (entries : list (value * value)).

Inductive exn : Type :=
| TypeError | KeyError | AttributeError | IndexError | ValueError | OSError.

Inductive outcome (A : Type) : Type :=
| Ok (a : A)
| Raise (e : exn).
Arguments Ok {A} a.
Arguments Raise {A} e.

(** Truth value of an object ([bool(x)], as tested by [not x] and [x and ...]). *)
Definition truthy (x : value) : bool :=
  match x with
  | VNone => false
  | VBool b => b
  | VInt z => negb (z =? 0)%Z
  | VFloat (S754_zero _) => false
  | VFloat _ => true
  | VStr s => negb (String.eqb s EmptyString)
  | VBytes b => negb (String.eqb b EmptyString)
  | VTimestamp _ => true
  | VList l | VTuple l | VSet l => match l with [] => false | _ => true end
  | VDict d => match d with [] => false | _ => true end
  end.

Definition is_dict (x : value) : bool :=
  match x with VDict _ => true | _ => false end.
Definition is_list (x : value) : bool :=
  match x with VList _ => true | _ => false end.
Definition is_str (x : value) : bool :=
  match x with VStr _ => true | _ => false end.

(** [x == s] for a string literal [s]: only an equal [str] compares equal. *)
Definition eq_str (x : value) (s : string) : bool :=
  match x with VStr t => String.eqb t s | _ => false end.

(** [x in names] for a list of string literals. *)
Definition in_strs (x : value) (names : list string) : bool :=
  existsb (eq_str x) names.

(** Lookup of a string key in the entries of a [dict]. *)
Fixpoint dict_lookup (d : list (value * value)) (k : string) : option value :=
  match d with
  | [] => None
  | (k', v) :: rest => if eq_str k' k then Some v else dict_lookup rest k
  end.

Definition dict_has (d : list (value * value)) (k : string) : bool :=
  match dict_lookup d k with Some _ => true | None => false end.

(** [k in x] for a string literal [k]. *)
Definition py_contains (k : string) (x : value) : outcome bool :=
  match x with
  | VDict d => Ok (dict_has d k)
  | VList l | VTuple l | VSet l => Ok (existsb (fun e => eq_str e k) l)
  | VStr s => Ok (PyStr.contains k s)
  | _ => Raise TypeError
  end.

(** [x[k]] for a string literal [k]. *)
Definition py_getitem (x : value) (k : string) : outcome value :=
  match x with
  | VDict d => match dict_lookup d k with Some v => Ok v | None => Raise KeyError end
  | _ => Raise TypeError
  end.

(** [x.get(k, default)] *)
Definition py_get (x : value) (k : string) (default : value) : outcome value :=
  match x with
  | VDict d => Ok (match dict_lookup d k with Some v => v | None => default end)
  | _ => Raise AttributeError
  end.

(** [x.items()] *)
Definition py_items (x : value) : outcome (list (value * value)) :=
  match x with
  | VDict d => Ok d
  | _ => Raise AttributeError
  end.

(** [sep.join(xs)]: every item has to be a [str]. *)
Fixpoint strs_of (xs : list value) : outcome (list string) :=
  match xs with
  | [] => Ok []
  | VStr s :: rest =>
      match strs_of rest with
      | Ok l => Ok (s :: l)
      | Raise e => Raise e
      end
  | _ :: _ => Raise TypeError
  end.

Definition py_join (sep : string) (xs : list value) : outcome string :=
  match strs_of xs with
  | Ok l => Ok (PyStr.join sep l)
  | Raise e => Raise e
  end.

(** [l[j]] on a list, negative indices counting from the end. *)
Definition py_index {A : Type} (l : list A) (j : Z) : outcome A :=
  let n := Z.of_nat (List.length l) in
  let j' := if (j <? 0)%Z then (n + j)%Z else j in
  if (j' <? 0)%Z then Raise IndexError
  else match nth_error l (Z.to_nat j') with
       | Some a => Ok a
       | None => Raise IndexError
       end.

(** [range(start, stop, -1)] *)
Definition py_range_down (start stop : Z) : list Z :=
  map (fun k => (start - Z.of_nat k)%Z) (seq 0 (Z.to_nat (start - stop))).

(** ** Diagnostics and the validator object *)

Record ValidationError : Type := mkValidationError {
  file : string;
  message : string;
  line : option Z
}.

(** The state of a [BlueprintValidator]: its two lists. *)
Record BlueprintValidator : Type := mkValidator {
  errors : list ValidationError;
  warnings : list ValidationError
}.

(** [BlueprintValidator()] *)
Definition new_validator : BlueprintValidator := mkValidator [] [].

(** A method body: reads and updates the validator, and either returns or
    raises.  The validator reached when an exception is raised is kept: the
    appends made before it are not undone. *)
Definition M (A : Type) : Type := BlueprintValidator -> outcome A * BlueprintValidator.

Definition ret {A : Type} (a : A) : M A := fun self => (Ok a, self).

Definition bind {A B : Type} (m : M A) (k : A -> M B) : M B :=
  fun self =>
    match m self with
    | (Ok a, self') => k a self'
    | (Raise e, self') => (Raise e, self')
    end.

Definition lift {A : Type} (o : outcome A) : M A := fun self => (o, self).

Notation "x <- m ;; k" := (bind m (fun x => k))
  (at level 61, m at next level, right associativity).
Notation "m ;; k" := (bind m (fun _ => k))
  (at level 61, right associativity).

(** [for x in xs: body(x)] *)
Fixpoint for_each {A : Type} (xs : list A) (body : A -> M unit) : M unit :=
  match xs with
  | [] => ret tt
  | x :: rest => body x ;; for_each rest body
  end.

Definition add_error (f msg : string) (ln : option Z) : M unit :=
  fun self => (Ok tt, mkValidator (errors self ++ [mkValidationError f msg ln]) (warnings self)).

Definition add_warning (f msg : string) (ln : option Z) : M unit :=
  fun self => (Ok tt, mkValidator (errors self) (warnings self ++ [mkValidationError f msg ln])).

(** The double-quote character, for the message texts that contain it. *)
Definition dquote : string := String "034"%char EmptyString.

Definition REQUIRED_BLUEPRINT_KEYS : list string := ["blueprint"; "trigger"; "action"].
Definition REQUIRED_BLUEPRINT_META : list string := ["name"; "description"; "domain"].
Definition VALID_DOMAINS : list string := ["automation"; "script"].

(** ** Files and the loader

    What [open(...).read()] followed by [yaml.safe_load] did for one file:
    it returned the text and the tree, or raised a [yaml.YAMLError] (with the
    [problem_mark] attribute when the error carries one), or raised some
    other [Exception] (an unreadable file, a decoding error, a constructor
    failing outside PyYAML's own error class). *)

Record Mark : Type := mkMark { mark_line : Z }.

Inductive load_result : Type :=
| Loaded (content : string) (blueprint : value)
| YAMLError (text : string) (problem_mark : option Mark)
| OtherException (text : string).

(** A file found in the blueprints directory: its path relative to the
    working directory and what loading it gives. *)
Record BlueprintFile : Type := mkFile {
  rel_path : string;
  load : load_result
}.


(** What the two [glob] calls list in the blueprints directory. *)
Record Directory : Type := mkDirectory {
  glob_yaml : list BlueprintFile;
  glob_yml : list BlueprintFile
}.

(** The default of [sys.int_info.default_max_str_digits], which the script
    leaves as it is.  ([len] gives less than 2^63, so printing a length or a
    column never meets the limit.) *)
Definition int_max_str_digits : Z := 4300.

(** ** The rules *)

Section Validator.

(** Python's [str()] of a [float], [bytes], timestamp or container, which
    the validator only splices into message texts: the text, or the exception
    it raises (a container that holds an [int] too long to print). *)
Variable str_of_object : value -> outcome string.

(** [str(x)], as an f-string field renders it.  CPython refuses to print an
    [int] of more than [int_max_str_digits] decimal digits and raises
    [ValueError]. *)
Definition py_str (x : value) : outcome string :=
  match x with
  | VStr s => Ok s
  | VNone => Ok "None"
  | VBool true => Ok "True"
  | VBool false => Ok "False"
  | VInt z =>
      if (10 ^ int_max_str_digits <=? Z.abs z)%Z then Raise ValueError
      else Ok (PyStr.str_of_int z)
  | _ => str_of_object x
  end.

Definition validate_structure (f : string) (blueprint : value) : M unit :=
  if negb (truthy blueprint) || negb (is_dict blueprint) then
    add_error f "Blueprint must be a valid YAML object" None
  else
    for_each REQUIRED_BLUEPRINT_KEYS (fun key =>
      b <- lift (py_contains key blueprint) ;;
      if negb b then
        add_error f ("Missing required top-level key: '" ++ key ++ "'") None
      else ret tt).

Definition validate_metadata (f : string) (meta : value) : M unit :=
  for_each REQUIRED_BLUEPRINT_META (fun key =>
    b <- lift (py_contains key meta) ;;
    if negb b then
      add_error f ("Missing required blueprint metadata: '" ++ key ++ "'") None
    else ret tt) ;;
  has_domain <- lift (py_contains "domain" meta) ;;
  (if has_domain then
     domain <- lift (py_getitem meta "domain") ;;
     if negb (in_strs domain VALID_DOMAINS) then
       text <- lift (py_str domain) ;;
       add_error f ("Invalid domain: '" ++ text ++ "'. Must be one of: "
                    ++ PyStr.join ", " VALID_DOMAINS) None
     else ret tt
   else ret tt) ;;
  has_description <- lift (py_contains "description" meta) ;;
  if has_description then
    description <- lift (py_getitem meta "description") ;;
    match description with
    | VStr d =>
        if (PyStr.len d <? 10)%Z then
          add_warning f "Blueprint description is very short (< 10 characters)" None
        else ret tt
    | _ => ret tt
    end
  else ret tt.

Definition reserved_keywords : list string :=
  ["blueprint"; "trigger"; "condition"; "action"].

Definition validate_inputs (f : string) (inputs : value) : M unit :=
  match inputs with
  | VDict entries =>
      for_each entries (fun '(input_name, input_def) =>
        if negb (is_dict input_def) then ret tt (* continue *)
        else
          has_name <- lift (py_contains "name" input_def) ;;
          (if negb has_name then
             text <- lift (py_str input_name) ;;
             add_warning f ("Input '" ++ text ++ "' missing 'name' property") None
           else ret tt) ;;
          has_selector <- lift (py_contains "selector" input_def) ;;
          (if negb has_selector then
             text <- lift (py_str input_name) ;;
             add_warning f ("Input '" ++ text ++ "' missing 'selector' property") None
           else ret tt) ;;
          if in_strs input_name reserved_keywords then
            text <- lift (py_str input_name) ;;
            add_error f ("Input name '" ++ text ++ "' is a reserved keyword") None
          else ret tt)
  | _ => add_error f "Blueprint inputs must be an object" None
  end.

Definition validate_triggers (f : string) (triggers : value) : M unit :=
  match triggers with
  | VList items =>
      if (Z.of_nat (List.length items) =? 0)%Z then
        add_warning f "No triggers defined" None
      else
        for_each items (fun trigger =>
          if is_dict trigger then
            b <- lift (py_contains "platform" trigger) ;;
            if negb b then
              add_error f ("Trigger missing required " ++ dquote ++ "platform" ++ dquote ++ " key") None
            else ret tt
          else ret tt)
  | _ => add_error f "Triggers must be an array" None
  end.

Definition validate_actions (f : string) (actions : value) : M unit :=
  match actions with
  | VList items =>
      if (Z.of_nat (List.length items) =? 0)%Z then
        add_warning f "No actions defined" None
      else ret tt
  | _ => add_error f "Actions must be an array" None
  end.

(** [len(line) - len(line.lstrip())] *)
Definition indent_of (l : string) : Z :=
  (PyStr.len l - PyStr.len (PyStr.lstrip l))%Z.

(** The inner loop of the choose/default check, over the indices [js] still
    to visit; it ends at the first line that mentions [choose:]. *)
Fixpoint look_backwards (f : string) (lines : list string)
         (default_indent line_num : Z) (js : list Z) : M unit :=
  match js with
  | [] => ret tt
  | j :: js' =>
      prev_line <- lift (py_index lines j) ;;
      if PyStr.contains "- choose:" (PyStr.strip prev_line)
         || String.eqb (PyStr.strip prev_line) "choose:" then
        let choose_indent := indent_of prev_line in
        let expected_default_indent :=
          if PyStr.startswith (PyStr.strip prev_line) "-" then choose_indent
          else (choose_indent + 2)%Z in
        if negb (default_indent =? expected_default_indent)%Z then
          add_warning f
            ("Possible indentation issue: 'default' at column "
             ++ PyStr.str_of_int default_indent
             ++ " may be misaligned with 'choose' at column "
             ++ PyStr.str_of_int choose_indent)
            (Some line_num)
        else ret tt (* break *)
      else look_backwards f lines default_indent line_num js'
  end.

Definition block_scalar_suffixes : list string := [">"; "|"; ">-"; "|-"; ">+"; "|+"].

(** One iteration of [for i, line in enumerate(lines)]. *)
Definition check_line (f : string) (lines : list string) (i : Z) (l : string) : M unit :=
  let line_num := (i + 1)%Z in
  (if PyStr.startswith (PyStr.strip l) "default:" then
     let default_indent := indent_of l in
     look_backwards f lines default_indent line_num
       (py_range_down (i - 1) (Z.max 0 (i - 50)))
   else ret tt) ;;
  (if PyStr.contains "{{" l && negb (PyStr.contains "}}" l) then
     let stripped := PyStr.strip l in
     if negb (existsb (fun c => PyStr.endswith stripped c) block_scalar_suffixes) then
       add_warning f "Possible unclosed template expression" (Some line_num)
     else ret tt
   else ret tt) ;;
  if PyStr.contains "  - condition: !input" l then
    add_warning f "Possible incorrect !input usage in condition list" (Some line_num)
  else ret tt.

(** [enumerate]: the remaining lines [rest] start at index [i]. *)
Fixpoint check_lines (f : string) (lines : list string) (i : Z) (rest : list string) : M unit :=
  match rest with
  | [] => ret tt
  | l :: rest' => check_line f lines i l ;; check_lines f lines (i + 1) rest'
  end.

(** The two checks on the parsed tree that end [check_common_mistakes]. *)
Definition check_tree (f : string) (blueprint : value) : M unit :=
  if truthy blueprint && is_dict blueprint then
    meta <- lift (py_get blueprint "blueprint" (VDict [])) ;;
    domain <- lift (py_get meta "domain" VNone) ;;
    (if eq_str domain "automation" then
       has_mode <- lift (py_contains "mode" blueprint) ;;
       if negb has_mode then
         add_warning f ("Consider setting " ++ dquote ++ "mode" ++ dquote
                        ++ " for automation (e.g., restart, single, parallel)") None
       else ret tt
     else ret tt) ;;
    has_blueprint <- lift (py_contains "blueprint" blueprint) ;;
    has_input <- (if has_blueprint then
                    meta <- lift (py_getitem blueprint "blueprint") ;;
                    lift (py_contains "input" meta)
                  else ret false) ;;
    if has_input then
      meta <- lift (py_getitem blueprint "blueprint") ;;
      inputs <- lift (py_getitem meta "input") ;;
      items <- lift (py_items inputs) ;;
      let inputs_without_defaults :=
        map fst (filter (fun '(_, def_) =>
                           match def_ with
                           | VDict d => negb (dict_has d "default")
                           | _ => false
                           end) items) in
      match inputs_without_defaults with
      | [] => ret tt
      | _ :: _ =>
          preview <- lift (py_join ", " (firstn 3 inputs_without_defaults)) ;;
          let n := Z.of_nat (List.length inputs_without_defaults) in
          let preview := if (3 <? n)%Z then (preview ++ "...")%string else preview in
          add_warning f (PyStr.str_of_int n ++ " input(s) without default values: " ++ preview) None
      end
    else ret tt
  else ret tt.

Definition check_common_mistakes (f : string) (blueprint : value) (content : string) : M unit :=
  (if PyStr.contains (String "009"%char EmptyString) content then
     add_warning f "File contains tabs. YAML should use spaces for indentation" None
   else ret tt) ;;
  let lines := PyStr.split_lines content in
  check_lines f lines 0 lines ;;
  check_tree f blueprint.

Definition validate_blueprint (file_path : BlueprintFile) : M unit :=
  let rel := rel_path file_path in
  match load file_path with
  | YAMLError text problem_mark =>
      let line_num :=
        match problem_mark with
        | Some mark => Some (mark_line mark + 1)%Z
        | None => None
        end in
      add_error rel ("YAML syntax error: " ++ text) line_num
  | OtherException text =>
      add_error rel ("Failed to read or parse file: " ++ text) None
  | Loaded content blueprint =>
      validate_structure rel blueprint ;;
      has_blueprint <- (if truthy blueprint then lift (py_contains "blueprint" blueprint)
                        else ret false) ;;
      (if has_blueprint then
         meta <- lift (py_getitem blueprint "blueprint") ;;
         validate_metadata rel meta
       else ret tt) ;;
      has_input <- (if truthy blueprint then
                      b <- lift (py_contains "blueprint" blueprint) ;;
                      if b then
                        meta <- lift (py_getitem blueprint "blueprint") ;;
                        lift (py_contains "input" meta)
                      else ret false
                    else ret false) ;;
      (if has_input then
         meta <- lift (py_getitem blueprint "blueprint") ;;
         inputs <- lift (py_getitem meta "input") ;;
         validate_inputs rel inputs
       else ret tt) ;;
      has_trigger <- (if truthy blueprint then lift (py_contains "trigger" blueprint)
                      else ret false) ;;
      (if has_trigger then
         triggers <- lift (py_getitem blueprint "trigger") ;;
         validate_triggers rel triggers
       else ret tt) ;;
      has_action <- (if truthy blueprint then lift (py_contains "action" blueprint)
                     else ret false) ;;
      (if has_action then
         actions <- lift (py_getitem blueprint "action") ;;
         validate_actions rel actions
       else ret tt) ;;
      check_common_mistakes rel blueprint content
  end.

(** The value [print_results] returns. *)
Definition print_results : M bool :=
  fun self =>
    match errors self, warnings self with
    | [], [] => (Ok true, self)
    | _, _ => (Ok (Z.of_nat (List.length (errors self)) =? 0)%Z, self)
    end.

(** [validate_all], given the blueprints directory when it exists. *)
Definition validate_all (blueprints_dir : option Directory) : M bool :=
  match blueprints_dir with
  | None =>
      add_error "blueprints/" "Blueprints directory not found" None ;;
      ret false
  | Some d =>
      let files := glob_yaml d ++ glob_yml d in
      match files with
      | [] => ret true
      | _ :: _ =>
          for_each files validate_blueprint ;;
          print_results
      end
  end.




End Validator.

(** [ValidationError.__str__] *)
Definition ValidationError_str (e : ValidationError) : string :=
  let location :=
    match line e with
    | Some n => if (n =? 0)%Z then EmptyString else (":" ++ PyStr.str_of_int n)%string
    | None => EmptyString
    end in
  (file e ++ location ++ ": " ++ message e)%string.

(** ** Diagnostics named in the statements *)

(** The line feed, which [split] cuts at. *)
Definition LF : string := String "010"%char EmptyString.

Definition missing_key (f key : string) : ValidationError :=
  mkValidationError f ("Missing required top-level key: '" ++ key ++ "'") None.

Definition missing_platform (f : string) : ValidationError :=
  mkValidationError f ("Trigger missing required " ++ dquote ++ "platform" ++ dquote ++ " key") None.

(** The horizontal tab. *)
Definition TAB : string := String "009"%char EmptyString.

(** A text on which none of the four textual heuristics has anything to look
    at: no tab, no line whose trimmed form starts with [default:], no line
    with [{{] and without [}}], no line containing [- condition: !input]. *)
Definition plain_text (content : string) : Prop :=
  PyStr.contains TAB content = false
  /\ forall l, In l (PyStr.split_lines content) ->
               PyStr.startswith (PyStr.strip l) "default:" = false
               /\ (PyStr.contains "{{" l = true -> PyStr.contains "}}" l = true)
               /\ PyStr.contains "- condition: !input" l = false.

(** The minimal valid document of the specification, as the loader builds it. *)
Definition minimal_blueprint : value :=
  VDict [ (VStr "blueprint",
           VDict [ (VStr "name", VStr "X");
                   (VStr "description", VStr "A long enough description");
                   (VStr "domain", VStr "automation");
                   (VStr "input", VDict []) ]);
          (VStr "trigger", VList [ VDict [ (VStr "platform", VStr "state") ] ]);
          (VStr "action", VList [ VDict [ (VStr "service", VStr "x") ] ]);
          (VStr "mode", VStr "single") ].

(** The text of the minimal valid document. *)
Definition minimal_text : string :=
  "blueprint:" ++ LF ++
  "  name: X" ++ LF ++
  "  description: A long enough description" ++ LF ++
  "  domain: automation" ++ LF ++
  "  input: {}" ++ LF ++
  "trigger:" ++ LF ++
  "  - platform: state" ++ LF ++
  "action:" ++ LF ++
  "  - service: x" ++ LF ++
  "mode: single" ++ LF.

(** [n] copies of [s], one after the other. *)
Fixpoint repeat_text (n : nat) (s : string) : string :=
  match n with
  | O => EmptyString
  | S k => s ++ repeat_text k s
  end.

Definition not_an_object (f : string) : ValidationError :=
  mkValidationError f "Blueprint must be a valid YAML object" None.

(** A rendering of the objects that are not strings, for the concrete
    instances at the end; none of them renders such an object. *)
Definition sample_str_of_object (x : value) : outcome string := Ok "<object>".

(** The diagnostic of the template check for line number [n] of file [f]. *)
Definition unclosed_template_at (f : string) (n : Z) (d : ValidationError) : bool :=
  String.eqb (file d) f
  && String.eqb (message d) "Possible unclosed template expression"
  && match line d with
     | Some m => (m =? n)%Z
     | None => false
     end.

(** The test of the template check on one line. *)
Definition template_test (l : string) : bool :=
  PyStr.contains "{{" l && negb (PyStr.contains "}}" l)
  && negb (existsb (fun c => PyStr.endswith (PyStr.strip l) c) block_scalar_suffixes).

(** How many members of [l] pass the test [q]. *)
Definition count {A : Type} (q : A -> bool) (l : list A) : nat :=
  List.length (filter q l).

(** A method body that returns, records no error, and appends only warnings
    that satisfy [P]. *)
Definition warns_ok (P : ValidationError -> Prop) (m : M unit) : Prop :=
  exists dw,
    Forall P dw
    /\ forall self, m self = (Ok tt, mkValidator (errors self) (warnings self ++ dw)).

(** A method body that, whether it returns or raises, records no error and
    appends only warnings that satisfy [P]. *)
Definition warns_only {A : Type} (P : ValidationError -> Prop) (m : M A) : Prop :=
  forall self, exists dw,
    snd (m self) = mkValidator (errors self) (warnings self ++ dw) /\ Forall P dw.

(** ** Diagnostics and predicates named in the further properties *)

Definition missing_meta (f key : string) : ValidationError :=
  mkValidationError f ("Missing required blueprint metadata: '" ++ key ++ "'") None.

(** [text] is what [str()] gives for the value at [domain]. *)
Definition invalid_domain (f text : string) : ValidationError :=
  mkValidationError f
    ("Invalid domain: '" ++ text ++ "'. Must be one of: automation, script") None.

Definition short_description (f : string) : ValidationError :=
  mkValidationError f "Blueprint description is very short (< 10 characters)" None.

(** An entry of the inputs mapping whose definition is a mapping without the
    key [k]. *)
Definition definition_lacks (k : string) (entry : value * value) : bool :=
  match snd entry with
  | VDict d => negb (dict_has d k)
  | _ => false
  end.

(** An entry of the inputs mapping with a mapping for definition and a
    reserved word for name. *)
Definition reserved_entry (entry : value * value) : bool :=
  is_dict (snd entry) && in_strs (fst entry) ["blueprint"; "trigger"; "condition"; "action"].

(** The text of an input's name in a message, when [str()] gives one. *)
Definition name_text (str_of_object : value -> outcome string) (name : value) : string :=
  match py_str str_of_object name with
  | Ok text => text
  | Raise _ => EmptyString
  end.

Definition reserved_name (str_of_object : value -> outcome string) (f : string) (name : value)
  : ValidationError :=
  mkValidationError f
    ("Input name '" ++ name_text str_of_object name ++ "' is a reserved keyword") None.

(** An entry of the inputs mapping for which the inputs rule has a warning
    to word. *)
Definition needs_warning (entry : value * value) : bool :=
  definition_lacks "name" entry || definition_lacks "selector" entry.

(** The errors and the warnings of the inputs rule for the entries of a
    mapping, in the order of the entries. *)
Definition input_errors (str_of_object : value -> outcome string) (f : string)
           (entries : list (value * value)) : list ValidationError :=
  map (fun e => reserved_name str_of_object f (fst e)) (filter reserved_entry entries).

Definition input_warnings (str_of_object : value -> outcome string) (f : string)
           (entries : list (value * value)) : list ValidationError :=
  flat_map (fun e =>
              (if definition_lacks "name" e then
                 [mkValidationError f
                    ("Input '" ++ name_text str_of_object (fst e)
                     ++ "' missing 'name' property") None]
               else [])
              ++ (if definition_lacks "selector" e then
                    [mkValidationError f
                       ("Input '" ++ name_text str_of_object (fst e)
                        ++ "' missing 'selector' property") None]
                  else []))
           entries.

(** The test of the backward scan on an earlier line. *)
Definition is_choose_line (l : string) : bool :=
  PyStr.contains "- choose:" (PyStr.strip l) || String.eqb (PyStr.strip l) "choose:".

(** The column a [default:] is expected at under the [choose] line [prev]. *)
Definition expected_default_indent (prev : string) : Z :=
  if PyStr.startswith (PyStr.strip prev) "-" then indent_of prev else (indent_of prev + 2)%Z.

Definition indentation_warning (f : string) (default_indent choose_indent n : Z)
  : ValidationError :=
  mkValidationError f
    ("Possible indentation issue: 'default' at column " ++ PyStr.str_of_int default_indent
     ++ " may be misaligned with 'choose' at column " ++ PyStr.str_of_int choose_indent)
    (Some n).

Definition tabs_warning (f : string) : ValidationError :=
  mkValidationError f "File contains tabs. YAML should use spaces for indentation" None.

Definition unclosed_warning (f : string) (n : Z) : ValidationError :=
  mkValidationError f "Possible unclosed template expression" (Some n).

Definition condition_input_warning (f : string) (n : Z) : ValidationError :=
  mkValidationError f "Possible incorrect !input usage in condition list" (Some n).

(** The first line, along the indices [js], that the backward scan stops at. *)
Fixpoint first_choose (lines : list string) (js : list Z) : option string :=
  match js with
  | [] => None
  | j :: js' =>
      match py_index lines j with
      | Ok prev => if is_choose_line prev then Some prev else first_choose lines js'
      | Raise _ => None
      end
  end.

(** The warnings of one iteration of the loop over the lines, and of the
    whole loop, as lists. *)
Definition default_warnings (f : string) (lines : list string) (i : Z) (l : string)
  : list ValidationError :=
  if PyStr.startswith (PyStr.strip l) "default:" then
    match first_choose lines (py_range_down (i - 1) (Z.max 0 (i - 50))) with
    | Some prev =>
        if (indent_of l =? expected_default_indent prev)%Z then []
        else [indentation_warning f (indent_of l) (indent_of prev) (i + 1)]
    | None => []
    end
  else [].

Definition line_warnings (f : string) (lines : list string) (i : Z) (l : string)
  : list ValidationError :=
  default_warnings f lines i l
  ++ (if template_test l then [unclosed_warning f (i + 1)] else [])
  ++ (if PyStr.contains "  - condition: !input" l then [condition_input_warning f (i + 1)]
      else []).

Fixpoint lines_warnings (f : string) (lines : list string) (i : Z) (rest : list string)
  : list ValidationError :=
  match rest with
  | [] => []
  | l :: rest' => line_warnings f lines i l ++ lines_warnings f lines (i + 1) rest'
  end.

Definition text_warnings (f content : string) : list ValidationError :=
  (if PyStr.contains TAB content then [tabs_warning f] else [])
  ++ lines_warnings f (PyStr.split_lines content) 0 (PyStr.split_lines content).

(** Equality test on diagnostics. *)
Definition same_diagnostic (a b : ValidationError) : bool :=
  String.eqb (file a) (file b)
  && String.eqb (message a) (message b)
  && match line a, line b with
     | Some m, Some n => (m =? n)%Z
     | None, None => true
     | _, _ => false
     end.

(** Test on a diagnostic: an indentation warning of [f] for line number [n]. *)
Definition indentation_warning_at (f : string) (n : Z) (d : ValidationError) : bool :=
  String.eqb (file d) f
  && PyStr.startswith (message d) "Possible indentation issue"
  && match line d with
     | Some m => (m =? n)%Z
     | None => false
     end.

Definition mode_warning (f : string) : ValidationError :=
  mkValidationError f
    ("Consider setting " ++ dquote ++ "mode" ++ dquote
     ++ " for automation (e.g., restart, single, parallel)") None.

(** The value at [k] in a mapping, an empty mapping standing for an absent
    key. *)
Definition mapping_at (d : list (value * value)) (k : string) : value :=
  match dict_lookup d k with
  | Some v => v
  | None => VDict []
  end.

(** The names of the inputs whose definition is a mapping without [default]. *)
Definition inputs_without_defaults (items : list (value * value)) : list value :=
  map fst (filter (definition_lacks "default") items).

(** The summary warning for [n] inputs without default, [shown] being the
    names of the first three. *)
Definition summary_warning (f : string) (n : nat) (shown : list string) : ValidationError :=
  mkValidationError f
    (PyStr.str_of_int (Z.of_nat n) ++ " input(s) without default values: "
     ++ (if (3 <? Z.of_nat n)%Z then PyStr.join ", " shown ++ "..."
         else PyStr.join ", " shown))
    None.

(** A method body that keeps what the validator holds and only appends to
    its two lists, whether it returns or raises. *)
Definition appends {A : Type} (m : M A) : Prop :=
  forall self, exists de dw,
    snd (m self) = mkValidator (errors self ++ de) (warnings self ++ dw).

(** An automation blueprint without [mode], with one input that has no
    default: the entries of its root mapping, of its [blueprint] mapping and
    of its [input] mapping, and its text. *)
Definition sample_items : list (value * value) :=
  [ (VStr "target",
     VDict [ (VStr "name", VStr "Target");
             (VStr "selector", VDict [ (VStr "entity", VDict []) ]) ]) ].

Definition sample_meta : list (value * value) :=
  [ (VStr "name", VStr "X");
    (VStr "description", VStr "A long enough description");
    (VStr "domain", VStr "automation");
    (VStr "input", VDict sample_items) ].

Definition sample_entries : list (value * value) :=
  [ (VStr "blueprint", VDict sample_meta);
    (VStr "trigger", VList [ VDict [ (VStr "platform", VStr "state") ] ]);
    (VStr "action", VList [ VDict [ (VStr "service", VStr "x") ] ]) ].

Definition sample_text : string :=
  "blueprint:" ++ LF ++
  "  name: X" ++ LF ++
  "  description: A long enough description" ++ LF ++
  "  domain: automation" ++ LF ++
  "  input:" ++ LF ++
  "    target:" ++ LF ++
  "      name: Target" ++ LF ++
  "      selector:" ++ LF ++
  "        entity: {}" ++ LF ++
  "trigger:" ++ LF ++
  "  - platform: state" ++ LF ++
  "action:" ++ LF ++
  "  - service: x" ++ LF.

(** A method body whose outcome and whose appended diagnostics are the same
    whatever the validator holds when it starts. *)
Definition independent {A : Type} (m : M A) : Prop :=
  exists r de dw, forall self,
    m self = (r, mkValidator (errors self ++ de) (warnings self ++ dw)).

(** How the metadata rule ends on the mapping [m]: it raises what [str()]
    raises on a value of [domain] that is neither [automation] nor [script],
    and returns otherwise. *)
Definition metadata_outcome (str_of_object : value -> outcome string)
           (m : list (value * value)) : outcome unit :=
  match dict_lookup m "domain" with
  | Some v =>
      if in_strs v ["automation"; "script"] then Ok tt
      else match py_str str_of_object v with
           | Ok _ => Ok tt
           | Raise e => Raise e
           end
  | None => Ok tt
  end.

(** The error of the metadata rule about the value of [domain]. *)
Definition domain_errors (str_of_object : value -> outcome string) (f : string)
           (m : list (value * value)) : list ValidationError :=
  match dict_lookup m "domain" with
  | Some v =>
      if in_strs v ["automation"; "script"] then []
      else match py_str str_of_object v with
           | Ok text => [invalid_domain f text]
           | Raise _ => []
           end
  | None => []
  end.





(** * Properties *)

(** ** Running a method body *)

Lemma bind_ok {A B : Type} (m : M A) (k : A -> M B) self a self' :
  m self = (Ok a, self') -> bind m k self = k a self'.
Proof. intros H. unfold bind. now rewrite H. Qed.

Lemma bind_raise {A B : Type} (m : M A) (k : A -> M B) self e self' :
  m self = (Raise e, self') -> bind m k self = (Raise e, self').
Proof. intros H. unfold bind. now rewrite H. Qed.

Lemma for_each_app {A : Type} (body : A -> M unit) (xs ys : list A) self :
  for_each (xs ++ ys) body self =
  match for_each xs body self with
  | (Ok _, self') => for_each ys body self'
  | (Raise e, self') => (Raise e, self')
  end.
Proof.
  revert self. induction xs as [|x xs IH]; intros self; simpl.
  - reflexivity.
  - unfold bind. destruct (body x self) as [[[]|e] s1]; [apply IH | reflexivity].
Qed.

Ltac run := unfold bind, lift, ret, add_error, add_warning; simpl.

(** ** Batch runner *)

(** C10: a missing blueprints directory gives one file-level error and the
    verdict [False], with no document validated; an existing directory with
    no document gives [True] and records nothing. *)
Theorem validate_all_missing_directory :
  forall str_of_object self,
    validate_all str_of_object None self =
      (Ok false,
       mkValidator
         (errors self ++ [mkValidationError "blueprints/" "Blueprints directory not found" None])
         (warnings self))
    /\ validate_all str_of_object (Some (mkDirectory [] [])) self = (Ok true, self).
Proof.
  intros str self. split; reflexivity.
Qed.

(** X18: a document that fails to load records exactly one error for its
    file, carrying the mark's line plus one when the YAML error has a mark and
    no line otherwise, and returns: no rule runs on it.  In the loop over the
    files, the documents before it are validated as they would be without it;
    when none of them raises, the documents after it are validated on the
    validator extended by that one error, and when one raises, the loop ends
    there. *)
Theorem parse_failure_is_one_error :
  forall str_of_object f pre post self,
    (forall content blueprint, load f <> Loaded content blueprint) ->
    exists d,
      file d = rel_path f
      /\ message d = match load f with
                     | YAMLError text _ => ("YAML syntax error: " ++ text)%string
                     | OtherException text => ("Failed to read or parse file: " ++ text)%string
                     | Loaded _ _ => EmptyString
                     end
      /\ line d = match load f with
                  | YAMLError _ (Some mark) => Some (mark_line mark + 1)%Z
                  | _ => None
                  end
      /\ (forall s, validate_blueprint str_of_object f s =
                    (Ok tt, mkValidator (errors s ++ [d]) (warnings s)))
      /\ for_each (pre ++ f :: post) (validate_blueprint str_of_object) self =
         match for_each pre (validate_blueprint str_of_object) self with
         | (Ok _, s1) =>
             for_each post (validate_blueprint str_of_object)
               (mkValidator (errors s1 ++ [d]) (warnings s1))
         | (Raise e, s1) => (Raise e, s1)
         end.
Proof.
  intros str f pre post self Hfail.
  unfold validate_blueprint.
  destruct (load f) as [content blueprint | text [mark|] | text] eqn:Hload.
  - exfalso. now apply (Hfail content blueprint).
  - eexists (mkValidationError _ _ _). repeat split; try reflexivity.
    rewrite for_each_app. simpl. unfold validate_blueprint. rewrite Hload.
    destruct (for_each pre _ self) as [[[]|e] s1]; reflexivity.
  - eexists (mkValidationError _ _ _). repeat split; try reflexivity.
    rewrite for_each_app. simpl. unfold validate_blueprint. rewrite Hload.
    destruct (for_each pre _ self) as [[[]|e] s1]; reflexivity.
  - eexists (mkValidationError _ _ _). repeat split; try reflexivity.
    rewrite for_each_app. simpl. unfold validate_blueprint. rewrite Hload.
    destruct (for_each pre _ self) as [[[]|e] s1]; reflexivity.
Qed.

(** ** Structure and triggers rules *)

Lemma validator_eta self : mkValidator (errors self) (warnings self) = self.
Proof. now destruct self. Qed.

(** C9: on a non-empty mapping the structure rule returns, leaves the warnings
    alone and appends errors among which each absent key of [blueprint],
    [trigger], [action] has its error, nothing else is there, and no error is
    repeated. *)
Theorem validate_structure_missing_keys :
  forall f entries self,
    entries <> [] ->
    exists de,
      validate_structure f (VDict entries) self =
        (Ok tt, mkValidator (errors self ++ de) (warnings self))
      /\ NoDup de
      /\ forall d, In d de <->
                   exists key, In key ["blueprint"; "trigger"; "action"]
                               /\ dict_has entries key = false
                               /\ d = missing_key f key.
Proof.
  intros f entries self Hne.
  destruct entries as [|e0 rest]; [congruence|]. clear Hne.
  set (entries := e0 :: rest).
  unfold validate_structure.
  change (negb (truthy (VDict entries)) || negb (is_dict (VDict entries))) with false.
  cbv iota. unfold REQUIRED_BLUEPRINT_KEYS, for_each, py_contains.
  run. unfold missing_key.
  exists (map (missing_key f)
            (filter (fun k => negb (dict_has entries k)) ["blueprint"; "trigger"; "action"])).
  cbn [filter map]. unfold missing_key.
  destruct (dict_has entries "blueprint") eqn:Hb;
    destruct (dict_has entries "trigger") eqn:Ht;
    destruct (dict_has entries "action") eqn:Ha; cbn [negb filter map errors warnings];
    rewrite <- ?app_assoc; cbn [app];
    (split;
     [ rewrite ?app_nil_r, ?validator_eta; reflexivity
     | split;
       [ repeat constructor; simpl; intuition congruence
       | intros d; simpl; split;
         [ intros Hin; intuition (subst; eauto 10)
         | intros [key [Hk [Hh Hd]]]; simpl in Hk;
           intuition (subst; try congruence; auto) ] ] ]).
Qed.

Lemma validate_triggers_items f items self :
  for_each items (fun trigger =>
    if is_dict trigger then
      b <- lift (py_contains "platform" trigger) ;;
      if negb b then
        add_error f ("Trigger missing required " ++ dquote ++ "platform" ++ dquote ++ " key") None
      else ret tt
    else ret tt) self =
  (Ok tt,
   mkValidator
     (errors self ++
      map (fun _ => missing_platform f)
        (filter (fun t => match t with
                          | VDict d => negb (dict_has d "platform")
                          | _ => false
                          end) items))
     (warnings self)).
Proof.
  revert self. induction items as [|t items IH]; intros self.
  - simpl. unfold ret. now rewrite app_nil_r, validator_eta.
  - cbn [for_each]. unfold bind at 1.
    destruct t; cbn [is_dict]; unfold ret at 1; try (rewrite IH; reflexivity).
    unfold bind, lift, py_contains. cbn [filter].
    destruct (dict_has entries "platform"); cbn [negb].
    + unfold ret. rewrite IH. reflexivity.
    + unfold add_error. rewrite IH. cbn [errors warnings map].
      now rewrite <- app_assoc.
Qed.

(** C8: the triggers rule on a non-sequence records one error and nothing
    else; on the empty sequence one warning and no error; on a non-empty
    sequence one error per mapping element without a [platform] key, nothing
    for the other elements, and no warning. *)
Theorem validate_triggers_cases :
  forall f self,
    (forall triggers,
        is_list triggers = false ->
        validate_triggers f triggers self =
          (Ok tt, mkValidator
                    (errors self ++ [mkValidationError f "Triggers must be an array" None])
                    (warnings self)))
    /\ validate_triggers f (VList []) self =
         (Ok tt, mkValidator
                   (errors self)
                   (warnings self ++ [mkValidationError f "No triggers defined" None]))
    /\ (forall t items,
           validate_triggers f (VList (t :: items)) self =
             (Ok tt, mkValidator
                       (errors self ++
                        repeat (missing_platform f)
                          (List.length
                             (filter (fun x => match x with
                                               | VDict d => negb (dict_has d "platform")
                                               | _ => false
                                               end) (t :: items))))
                       (warnings self))).
Proof.
  intros f self. split; [|split].
  - intros triggers Hl. destruct triggers; try discriminate Hl; reflexivity.
  - reflexivity.
  - intros t items. unfold validate_triggers.
    change (Z.of_nat (List.length (t :: items)) =? 0)%Z with false. cbv iota.
    rewrite validate_triggers_items. do 2 f_equal.
    f_equal. generalize (t :: items) as l. clear.
    induction l as [|x l IH]; [reflexivity|].
    cbn [filter]. destruct (match x with VDict d => negb (dict_has d "platform") | _ => false end);
      simpl; now rewrite IH.
Qed.

(** ** Text heuristics *)

Lemma count_app {A : Type} (q : A -> bool) (l1 l2 : list A) :
  count q (l1 ++ l2) = count q l1 + count q l2.
Proof. unfold count. now rewrite filter_app, length_app. Qed.

Lemma count_none {A : Type} (q : A -> bool) (l : list A) :
  Forall (fun d => q d = false) l -> count q l = 0.
Proof.
  unfold count. induction 1 as [|d l Hd _ IH]; simpl; [reflexivity|].
  now rewrite Hd.
Qed.

Section Composition.

Variable P : ValidationError -> Prop.

Lemma warns_ok_ret : warns_ok P (ret tt).
Proof.
  exists []. split; [constructor|]. intros self.
  unfold ret. now rewrite app_nil_r, validator_eta.
Qed.

Lemma warns_ok_add_warning f msg ln :
  P (mkValidationError f msg ln) -> warns_ok P (add_warning f msg ln).
Proof.
  intros H. exists [mkValidationError f msg ln]. split; [|reflexivity].
  now repeat constructor.
Qed.

Lemma warns_ok_ext (m m' : M unit) :
  (forall self, m self = m' self) -> warns_ok P m' -> warns_ok P m.
Proof.
  intros E [dw [F H]]. exists dw. split; [exact F|].
  intros self. now rewrite E.
Qed.

Lemma warns_ok_seq (m k : M unit) :
  warns_ok P m -> warns_ok P k -> warns_ok P (m ;; k).
Proof.
  intros [dw1 [F1 E1]] [dw2 [F2 E2]].
  exists (dw1 ++ dw2). split.
  - now apply Forall_app.
  - intros self. rewrite (bind_ok _ _ _ _ _ (E1 self)), E2.
    cbn [errors warnings]. now rewrite app_assoc.
Qed.

Lemma warns_only_ret {A : Type} (a : A) : warns_only P (ret a).
Proof.
  intros self. exists []. split; [|constructor].
  unfold ret. cbn [snd]. now rewrite app_nil_r, validator_eta.
Qed.

Lemma warns_only_lift {A : Type} (o : outcome A) : warns_only P (lift o).
Proof.
  intros self. exists []. split; [|constructor].
  unfold lift. cbn [snd]. now rewrite app_nil_r, validator_eta.
Qed.

Lemma warns_only_add_warning f msg ln :
  P (mkValidationError f msg ln) -> warns_only P (add_warning f msg ln).
Proof.
  intros H self. exists [mkValidationError f msg ln]. split; [reflexivity|].
  now repeat constructor.
Qed.

Lemma warns_only_bind {A B : Type} (m : M A) (k : A -> M B) :
  warns_only P m -> (forall a, warns_only P (k a)) -> warns_only P (bind m k).
Proof.
  intros Hm Hk self.
  destruct (Hm self) as [dw1 [E1 F1]].
  unfold bind. destruct (m self) as [[a|e] s1]; cbn [snd] in E1; subst s1.
  - destruct (Hk a (mkValidator (errors self) (warnings self ++ dw1))) as [dw2 [E2 F2]].
    exists (dw1 ++ dw2). split.
    + rewrite E2. cbn [errors warnings]. now rewrite app_assoc.
    + now apply Forall_app.
  - exists dw1. now split.
Qed.

Lemma warns_ok_only (m : M unit) : warns_ok P m -> warns_only P m.
Proof.
  intros [dw [F E]] self. exists dw. now rewrite E.
Qed.

End Composition.

Lemma py_index_in_range {A : Type} (l : list A) (j : Z) :
  (0 <= j < Z.of_nat (List.length l))%Z -> exists a, py_index l j = Ok a.
Proof.
  intros [H0 H1]. unfold py_index.
  destruct (j <? 0)%Z eqn:E; [apply Z.ltb_lt in E; lia|]. rewrite E.
  destruct (nth_error l (Z.to_nat j)) eqn:N; [eauto|].
  apply nth_error_None in N. lia.
Qed.

Lemma py_range_down_bounds (start stop j : Z) :
  In j (py_range_down start stop) -> (stop < j <= start)%Z.
Proof.
  unfold py_range_down. rewrite in_map_iff. intros [k [<- Hk]].
  apply in_seq in Hk. lia.
Qed.

(** The backward scan stays inside the list of lines, so it returns; what it
    appends is at most the indentation warning. *)
Lemma look_backwards_ok (P : ValidationError -> Prop) f lines default_indent line_num :
  (forall msg, P (mkValidationError f
                    ("Possible indentation issue: 'default' at column " ++ msg)
                    (Some line_num))) ->
  forall js,
    (forall j, In j js -> (0 <= j < Z.of_nat (List.length lines))%Z) ->
    warns_ok P (look_backwards f lines default_indent line_num js).
Proof.
  intros HP js. induction js as [|j js IH]; intros Hjs.
  - apply warns_ok_ret.
  - cbn [look_backwards].
    destruct (py_index_in_range lines j (Hjs j (or_introl eq_refl))) as [prev Hprev].
    rewrite Hprev.
    eapply warns_ok_ext; [intros self; unfold bind at 1, lift at 1; reflexivity|].
    cbv beta.
    destruct (PyStr.contains "- choose:" (PyStr.strip prev) || (PyStr.strip prev =? "choose:")%string).
    + destruct (negb _).
      * apply warns_ok_add_warning. apply HP.
      * apply warns_ok_ret.
    + apply IH. intros j' Hj'. apply Hjs. now right.
Qed.

Lemma indentation_not_unclosed f n msg ln :
  unclosed_template_at f n
    (mkValidationError f ("Possible indentation issue: 'default' at column " ++ msg) ln) = false.
Proof.
  unfold unclosed_template_at. cbn [message file line].
  replace (("Possible indentation issue: 'default' at column " ++ msg
            =? "Possible unclosed template expression")%string) with false by reflexivity.
  now rewrite Bool.andb_false_r.
Qed.

(** One line of the text: the iteration returns, and among the warnings it
    appends the template warning for line number [n] occurs once when [n] is
    this line's number and the template test holds for the line, and not at
    all otherwise. *)
Lemma check_line_unclosed f lines i l n :
  (0 <= i < Z.of_nat (List.length lines))%Z ->
  exists dw,
    (forall self,
        check_line f lines i l self = (Ok tt, mkValidator (errors self) (warnings self ++ dw)))
    /\ count (unclosed_template_at f n) dw =
       if (n =? i + 1)%Z && template_test l then 1 else 0.
Proof.
  intros Hi. unfold check_line.
  set (Q := fun d => unclosed_template_at f n d = false).
  assert (HA : warns_ok Q
    (if PyStr.startswith (PyStr.strip l) "default:"
     then look_backwards f lines (indent_of l) (i + 1)
            (py_range_down (i - 1) (Z.max 0 (i - 50)))
     else ret tt)).
  { destruct (PyStr.startswith (PyStr.strip l) "default:").
    - apply look_backwards_ok.
      + intros msg. apply indentation_not_unclosed.
      + intros j Hj. apply py_range_down_bounds in Hj. lia.
    - apply warns_ok_ret. }
  assert (HC : warns_ok Q
    (if PyStr.contains "  - condition: !input" l
     then add_warning f "Possible incorrect !input usage in condition list" (Some (i + 1)%Z)
     else ret tt)).
  { destruct (PyStr.contains "  - condition: !input" l).
    - apply warns_ok_add_warning. unfold Q, unclosed_template_at. cbn [message file line].
      replace (("Possible incorrect !input usage in condition list"
                =? "Possible unclosed template expression")%string) with false by reflexivity.
      now rewrite Bool.andb_false_r.
    - apply warns_ok_ret. }
  destruct HA as [dwA [FA EA]]. destruct HC as [dwC [FC EC]].
  set (dwB := if template_test l
              then [mkValidationError f "Possible unclosed template expression"
                      (Some (i + 1)%Z)] else []).
  assert (EB : forall s,
    (if PyStr.contains "{{" l && negb (PyStr.contains "}}" l)
     then
       if negb (existsb (fun c => PyStr.endswith (PyStr.strip l) c) block_scalar_suffixes)
       then add_warning f "Possible unclosed template expression" (Some (i + 1)%Z)
       else ret tt
     else ret tt) s = (Ok tt, mkValidator (errors s) (warnings s ++ dwB))).
  { intros s. unfold dwB, template_test.
    destruct (PyStr.contains "{{" l && negb (PyStr.contains "}}" l)); cbn [andb].
    - destruct (negb (existsb _ block_scalar_suffixes)); [reflexivity|].
      unfold ret. now rewrite app_nil_r, validator_eta.
    - unfold ret. now rewrite app_nil_r, validator_eta. }
  exists (dwA ++ dwB ++ dwC). split.
  - intros self.
    rewrite (bind_ok _ _ _ _ _ (EA self)), (bind_ok _ _ _ _ _ (EB _)), EC.
    cbn [errors warnings]. now rewrite !app_assoc.
  - rewrite !count_app, (count_none _ _ FA), (count_none _ _ FC).
    unfold dwB. destruct (template_test l); rewrite ?Bool.andb_true_r, ?Bool.andb_false_r.
    + unfold count. cbn [filter]. unfold unclosed_template_at. cbn [message file line].
      rewrite !String.eqb_refl. cbn [andb].
      replace (i + 1 =? n)%Z with (n =? i + 1)%Z by apply Z.eqb_sym.
      destruct (n =? i + 1)%Z; reflexivity.
    + reflexivity.
Qed.

(** The loop over the lines [rest], which start at index [s] of [lines]. *)
Lemma check_lines_unclosed f lines n :
  forall rest s,
    (0 <= s)%Z ->
    (s + Z.of_nat (List.length rest) <= Z.of_nat (List.length lines))%Z ->
    exists dw,
      (forall self,
          check_lines f lines s rest self =
            (Ok tt, mkValidator (errors self) (warnings self ++ dw)))
      /\ count (unclosed_template_at f n) dw =
         match (if (s + 1 <=? n)%Z then nth_error rest (Z.to_nat (n - 1 - s)) else None) with
         | Some l => if template_test l then 1 else 0
         | None => 0
         end.
Proof.
  induction rest as [|l rest IH]; intros s Hs Hlen.
  - exists []. split.
    + intros self. cbn [check_lines]. unfold ret. now rewrite app_nil_r, validator_eta.
    + destruct (s + 1 <=? n)%Z; [|reflexivity].
      now destruct (Z.to_nat (n - 1 - s)).
  - cbn [check_lines]. cbn [List.length] in Hlen.
    destruct (check_line_unclosed f lines s l n ltac:(lia)) as [dw1 [E1 C1]].
    destruct (IH (s + 1)%Z ltac:(lia) ltac:(lia)) as [dw2 [E2 C2]].
    exists (dw1 ++ dw2). split.
    { intros self. rewrite (bind_ok _ _ _ _ _ (E1 self)), E2.
      cbn [errors warnings]. now rewrite app_assoc. }
    rewrite count_app, C1, C2.
    destruct (n =? s + 1)%Z eqn:En.
    + apply Z.eqb_eq in En. subst n.
      replace (s + 1 + 1 <=? s + 1)%Z with false by (symmetry; apply Z.leb_gt; lia).
      replace (s + 1 <=? s + 1)%Z with true by (symmetry; apply Z.leb_le; lia).
      replace (s + 1 - 1 - s)%Z with 0%Z by lia. cbn [Z.to_nat nth_error andb].
      destruct (template_test l); reflexivity.
    + apply Z.eqb_neq in En. cbn [andb].
      destruct (s + 1 <=? n)%Z eqn:Le.
      * apply Z.leb_le in Le.
        replace (s + 1 + 1 <=? n)%Z with true by (symmetry; apply Z.leb_le; lia).
        replace (Z.to_nat (n - 1 - s)) with (S (Z.to_nat (n - 1 - (s + 1)))) by lia.
        reflexivity.
      * apply Z.leb_gt in Le.
        replace (s + 1 + 1 <=? n)%Z with false by (symmetry; apply Z.leb_gt; lia).
        reflexivity.
Qed.

Ltac warns_only_tac :=
  repeat first
    [ apply warns_only_ret
    | apply warns_only_lift
    | apply warns_only_add_warning; reflexivity
    | apply warns_only_bind; [|intros]
    | match goal with |- warns_only _ (if ?b then _ else _) => destruct b end
    | match goal with |- warns_only _ (match ?x with _ => _ end) => destruct x end
    | progress cbv zeta ].

(** The checks on the tree record no error, and their warnings carry no line
    number, whether they return or raise. *)
Lemma check_tree_warns_only f blueprint :
  warns_only (fun d => line d = None) (check_tree f blueprint).
Proof.
  unfold check_tree. warns_only_tac.
Qed.

(** C7: for every line of the text, among the warnings the heuristic pass
    appends, the template warning with that line's 1-based number occurs
    exactly once when the line has an opening delimiter, no closing delimiter
    and no block-scalar suffix at the end of its trimmed form, and does not
    occur otherwise (so not for a line with both delimiters). *)
Theorem unclosed_template_warning_per_line :
  forall f blueprint content i l self,
    nth_error (PyStr.split_lines content) i = Some l ->
    exists dw,
      snd (check_common_mistakes f blueprint content self) =
        mkValidator (errors self) (warnings self ++ dw)
      /\ count (unclosed_template_at f (Z.of_nat i + 1)) dw =
         if PyStr.contains "{{" l && negb (PyStr.contains "}}" l)
            && negb (PyStr.endswith (PyStr.strip l) ">" || PyStr.endswith (PyStr.strip l) "|"
                     || PyStr.endswith (PyStr.strip l) ">-" || PyStr.endswith (PyStr.strip l) "|-"
                     || PyStr.endswith (PyStr.strip l) ">+" || PyStr.endswith (PyStr.strip l) "|+")
         then 1 else 0.
Proof.
  intros f blueprint content i l self Hl.
  set (n := (Z.of_nat i + 1)%Z).
  unfold check_common_mistakes.
  set (lines := PyStr.split_lines content) in *.
  set (Q := fun d => unclosed_template_at f n d = false).
  assert (HT : warns_ok Q
    (if PyStr.contains (String "009"%char EmptyString) content
     then add_warning f "File contains tabs. YAML should use spaces for indentation" None
     else ret tt)).
  { destruct (PyStr.contains _ content).
    - apply warns_ok_add_warning. unfold Q, unclosed_template_at. cbn [line].
      now rewrite Bool.andb_false_r.
    - apply warns_ok_ret. }
  destruct HT as [dw0 [F0 E0]].
  rewrite (bind_ok _ _ _ _ _ (E0 self)).
  destruct (check_lines_unclosed f lines n lines 0%Z ltac:(lia) ltac:(lia)) as [dw1 [E1 C1]].
  rewrite (bind_ok _ _ _ _ _ (E1 _)). cbn [errors warnings].
  destruct (check_tree_warns_only f blueprint
              (mkValidator (errors self) ((warnings self ++ dw0) ++ dw1))) as [dw2 [E2 F2]].
  rewrite E2. cbn [errors warnings].
  exists (dw0 ++ dw1 ++ dw2). split; [now rewrite !app_assoc|].
  rewrite !count_app, (count_none _ _ F0), C1.
  rewrite (count_none _ dw2).
  - unfold n. replace (0 + 1 <=? Z.of_nat i + 1)%Z with true by (symmetry; apply Z.leb_le; lia).
    replace (Z.to_nat (Z.of_nat i + 1 - 1 - 0)) with i by lia.
    rewrite Hl. unfold template_test, block_scalar_suffixes. cbn [existsb].
    rewrite Bool.orb_false_r, !Bool.orb_assoc. simpl. lia.
  - eapply Forall_impl; [|exact F2]. intros d Hd. unfold unclosed_template_at.
    rewrite Hd. now rewrite Bool.andb_false_r.
Qed.

(** ** Texts the heuristics pass over in silence *)

Lemma startswith_contains (p s : string) :
  PyStr.startswith s p = true -> PyStr.contains p s = true.
Proof.
  intros H. destruct s; cbn [PyStr.contains]; now rewrite H.
Qed.

Lemma contains_tail (a : ascii) (p s : string) :
  PyStr.contains (String a p) s = true -> PyStr.contains p s = true.
Proof.
  induction s as [|b s IH]; cbn [PyStr.contains PyStr.startswith].
  - discriminate.
  - intros H. apply Bool.orb_true_iff in H. destruct H as [H|H].
    + apply Bool.andb_true_iff in H. destruct H as [_ H].
      apply startswith_contains in H. rewrite H. apply Bool.orb_true_r.
    + rewrite (IH H). apply Bool.orb_true_r.
Qed.

Lemma condition_input_absent (l : string) :
  PyStr.contains "- condition: !input" l = false ->
  PyStr.contains "  - condition: !input" l = false.
Proof.
  intros H. destruct (PyStr.contains "  - condition: !input" l) eqn:E; [|reflexivity].
  apply contains_tail, contains_tail in E. congruence.
Qed.

Lemma check_lines_plain f lines :
  forall rest s self,
    (forall l, In l rest ->
               PyStr.startswith (PyStr.strip l) "default:" = false
               /\ (PyStr.contains "{{" l = true -> PyStr.contains "}}" l = true)
               /\ PyStr.contains "- condition: !input" l = false) ->
    check_lines f lines s rest self = (Ok tt, self).
Proof.
  induction rest as [|l rest IH]; intros s self H; [reflexivity|].
  cbn [check_lines].
  destruct (H l (or_introl eq_refl)) as [Hd [Ht Hc]].
  assert (E : check_line f lines s l self = (Ok tt, self)).
  { unfold check_line. rewrite Hd, (condition_input_absent l Hc).
    destruct (PyStr.contains "{{" l); [rewrite (Ht eq_refl)|]; reflexivity. }
  rewrite (bind_ok _ _ _ _ _ E). apply IH.
  intros l' Hl'. apply H. now right.
Qed.

Lemma check_common_mistakes_plain f blueprint content self :
  plain_text content ->
  check_common_mistakes f blueprint content self = check_tree f blueprint self.
Proof.
  intros [Htab Hlines]. unfold check_common_mistakes.
  fold TAB. rewrite Htab.
  rewrite (bind_ok _ _ self tt self) by reflexivity.
  rewrite (bind_ok _ _ self tt self) by (now apply check_lines_plain).
  reflexivity.
Qed.

(** C6: the minimal valid document, read from a text the textual heuristics
    have nothing to say about, goes through every rule and leaves the
    validator as it was: no error and no warning. *)
Theorem minimal_blueprint_is_clean :
  forall str_of_object f content self,
    plain_text content ->
    validate_blueprint str_of_object (mkFile f (Loaded content minimal_blueprint)) self
    = (Ok tt, self).
Proof.
  intros str f content self Hplain.
  unfold validate_blueprint. cbn [load rel_path].
  rewrite (bind_ok _ _ self tt self) by reflexivity.
  rewrite (bind_ok _ _ self true self) by reflexivity. cbv beta iota.
  rewrite (bind_ok _ _ self tt self) by reflexivity.
  rewrite (bind_ok _ _ self true self) by reflexivity. cbv beta iota.
  rewrite (bind_ok _ _ self tt self) by reflexivity.
  rewrite (bind_ok _ _ self true self) by reflexivity. cbv beta iota.
  rewrite (bind_ok _ _ self tt self) by reflexivity.
  rewrite (bind_ok _ _ self true self) by reflexivity. cbv beta iota.
  rewrite (bind_ok _ _ self tt self) by reflexivity.
  rewrite (check_common_mistakes_plain _ _ _ _ Hplain).
  reflexivity.
Qed.

(** ** A sequence at the root *)

Lemma existsb_eq_str (k : string) (items : list value) :
  ~ In (VStr k) items -> existsb (fun e => eq_str e k) items = false.
Proof.
  intros H. destruct (existsb (fun e => eq_str e k) items) eqn:E; [|reflexivity].
  apply existsb_exists in E. destruct E as [x [Hin Hx]].
  destruct x; try discriminate Hx. cbn [eq_str] in Hx.
  apply String.eqb_eq in Hx. subst. contradiction.
Qed.

(** What the tab check and the loop over the lines append depends on the file
    name and the text only. *)
Lemma text_checks_uniform f content :
  exists dw, forall blueprint self,
    check_common_mistakes f blueprint content self =
    check_tree f blueprint (mkValidator (errors self) (warnings self ++ dw)).
Proof.
  assert (HT : warns_ok (fun _ => True)
    (if PyStr.contains (String "009"%char EmptyString) content
     then add_warning f "File contains tabs. YAML should use spaces for indentation" None
     else ret tt)).
  { destruct (PyStr.contains _ content); [now apply warns_ok_add_warning | apply warns_ok_ret]. }
  destruct HT as [dw0 [_ E0]].
  destruct (check_lines_unclosed f (PyStr.split_lines content) 0%Z
              (PyStr.split_lines content) 0%Z ltac:(lia) ltac:(lia)) as [dw1 [E1 _]].
  exists (dw0 ++ dw1). intros blueprint self. unfold check_common_mistakes.
  rewrite (bind_ok _ _ _ _ _ (E0 self)).
  rewrite (bind_ok _ _ _ _ _ (E1 _)). cbn [errors warnings].
  now rewrite app_assoc.
Qed.

(** C3, as the code has it: for a root sequence none of whose items is one of
    the strings [blueprint], [trigger], [action], validation returns and
    records the one error of the structure rule and no other error; the
    warnings it records are those the heuristic pass gives for the text alone
    (with no tree), and there are none when the text is plain. *)
Theorem list_root_one_error :
  forall str_of_object f content items self,
    (forall key, In key ["blueprint"; "trigger"; "action"] -> ~ In (VStr key) items) ->
    exists dw,
      validate_blueprint str_of_object (mkFile f (Loaded content (VList items))) self
      = (Ok tt, mkValidator (errors self ++ [not_an_object f]) (warnings self ++ dw))
      /\ check_common_mistakes f VNone content new_validator = (Ok tt, mkValidator [] dw)
      /\ (plain_text content -> dw = []).
Proof.
  intros str f content items self Hitems.
  destruct (text_checks_uniform f content) as [dw Hdw].
  exists dw. split; [|split].
  - unfold validate_blueprint. cbn [load rel_path].
    assert (Hk : forall key, In key ["blueprint"; "trigger"; "action"] ->
                 forall s, (if truthy (VList items) then lift (py_contains key (VList items))
                            else ret false) s = (Ok false, s)).
    { intros key Hkey s. destruct items as [|x items]; [reflexivity|].
      cbn [truthy py_contains]. now rewrite (existsb_eq_str _ _ (Hitems key Hkey)). }
    assert (Hs : validate_structure f (VList items) self =
                 (Ok tt, mkValidator (errors self ++ [not_an_object f]) (warnings self))).
    { unfold validate_structure. cbn [is_dict negb]. now rewrite Bool.orb_true_r. }
    rewrite (bind_ok _ _ _ _ _ Hs).
    rewrite (bind_ok _ _ _ _ _ (Hk "blueprint" ltac:(simpl; auto) _)). cbv beta iota.
    rewrite (bind_ok _ _ _ tt _) by reflexivity.
    assert (Hi : forall s,
      (if truthy (VList items) then
         b <- lift (py_contains "blueprint" (VList items)) ;;
         if b then
           meta <- lift (py_getitem (VList items) "blueprint") ;;
           lift (py_contains "input" meta)
         else ret false
       else ret false) s = (Ok false, s)).
    { intros s. destruct items as [|x items]; [reflexivity|].
      cbn [truthy py_contains].
      now rewrite (existsb_eq_str _ _ (Hitems "blueprint" ltac:(simpl; auto))). }
    rewrite (bind_ok _ _ _ _ _ (Hi _)). cbv beta iota.
    rewrite (bind_ok _ _ _ tt _) by reflexivity.
    rewrite (bind_ok _ _ _ _ _ (Hk "trigger" ltac:(simpl; auto) _)). cbv beta iota.
    rewrite (bind_ok _ _ _ tt _) by reflexivity.
    rewrite (bind_ok _ _ _ _ _ (Hk "action" ltac:(simpl; auto) _)). cbv beta iota.
    rewrite (bind_ok _ _ _ tt _) by reflexivity.
    rewrite Hdw. cbn [errors warnings]. unfold check_tree. cbn [is_dict].
    now rewrite Bool.andb_false_r.
  - rewrite Hdw. reflexivity.
  - intros Hplain.
    pose proof (check_common_mistakes_plain f VNone content new_validator Hplain) as E.
    rewrite Hdw in E. cbv in E. now injection E.
Qed.

(** ** Evaluations *)

(** C1: documents on which the entry point raises.  A null at [blueprint]
    raises in the metadata rule, after the structure rule has recorded its
    errors; a scalar root raises at the first membership test; a string at
    [blueprint] and a null at [blueprint.input] raise in the heuristic pass. *)
Theorem validate_blueprint_raises :
  forall str_of_object,
    validate_blueprint str_of_object
      (mkFile "blueprints/b.yaml"
         (Loaded ("blueprint:" ++ LF) (VDict [(VStr "blueprint", VNone)])))
      new_validator
    = (Raise TypeError,
       mkValidator [missing_key "blueprints/b.yaml" "trigger";
                    missing_key "blueprints/b.yaml" "action"] [])
    /\ validate_blueprint str_of_object
         (mkFile "blueprints/b.yaml" (Loaded ("42" ++ LF) (VInt 42)))
         new_validator
       = (Raise TypeError, mkValidator [not_an_object "blueprints/b.yaml"] [])
    /\ fst (validate_blueprint str_of_object
              (mkFile "blueprints/b.yaml"
                 (Loaded ("blueprint: text" ++ LF ++ "trigger: []" ++ LF ++ "action: []" ++ LF)
                    (VDict [(VStr "blueprint", VStr "text");
                            (VStr "trigger", VList []);
                            (VStr "action", VList [])])))
              new_validator)
       = Raise AttributeError
    /\ fst (validate_blueprint str_of_object
              (mkFile "blueprints/b.yaml"
                 (Loaded ("blueprint:" ++ LF ++ "  name: X" ++ LF ++ "  domain: script" ++ LF
                          ++ "  input:" ++ LF)
                    (VDict [(VStr "blueprint",
                             VDict [(VStr "name", VStr "X");
                                    (VStr "domain", VStr "script");
                                    (VStr "input", VNone)])])))
              new_validator)
       = Raise AttributeError.
Proof.
  intros str. repeat split; vm_compute; reflexivity.
Qed.

(** C5: a batch in which a document that fails to parse comes after one on
    which validation raises.  [validate_all] ends with the exception of the
    first document: the parse error of the second is never recorded and the
    third document is never validated.  Without the first document, the
    parse error is recorded with the mark's line plus one, the third document
    is validated, and the verdict is [False]. *)
Theorem parse_failure_lost_when_batch_raises :
  forall str_of_object,
    validate_all str_of_object
      (Some (mkDirectory
               [ mkFile "blueprints/a.yaml"
                   (Loaded ("blueprint:" ++ LF) (VDict [(VStr "blueprint", VNone)]));
                 mkFile "blueprints/b.yaml"
                   (YAMLError "mapping values are not allowed here" (Some (mkMark 2)));
                 mkFile "blueprints/c.yaml" (Loaded minimal_text minimal_blueprint) ]
               []))
      new_validator
    = (Raise TypeError,
       mkValidator [missing_key "blueprints/a.yaml" "trigger";
                    missing_key "blueprints/a.yaml" "action"] [])
    /\ validate_all str_of_object
         (Some (mkDirectory
                  [ mkFile "blueprints/b.yaml"
                      (YAMLError "mapping values are not allowed here" (Some (mkMark 2)));
                    mkFile "blueprints/c.yaml" (Loaded minimal_text minimal_blueprint) ]
                  []))
         new_validator
       = (Ok false,
          mkValidator
            [mkValidationError "blueprints/b.yaml"
               "YAML syntax error: mapping values are not allowed here" (Some 3%Z)]
            []).
Proof.
  intros str. split; vm_compute; reflexivity.
Qed.

(** C2: an input named [action] whose definition is null, a scalar or a
    sequence leaves the validator untouched: the reserved-name error is
    recorded only when the definition is a mapping. *)
Theorem reserved_name_needs_mapping_definition :
  forall str_of_object f self,
    validate_inputs str_of_object f (VDict [(VStr "action", VNone)]) self = (Ok tt, self)
    /\ validate_inputs str_of_object f (VDict [(VStr "action", VStr "text")]) self = (Ok tt, self)
    /\ validate_inputs str_of_object f (VDict [(VStr "action", VList [])]) self = (Ok tt, self)
    /\ validate_inputs str_of_object f
         (VDict [(VStr "action", VDict [(VStr "name", VStr "A"); (VStr "selector", VDict [])])])
         self
       = (Ok tt,
          mkValidator
            (errors self
             ++ [mkValidationError f "Input name 'action' is a reserved keyword" None])
            (warnings self)).
Proof.
  intros str f self. repeat split; reflexivity.
Qed.

(** C4: the backward scan never reads the first line of the text and reads 49
    lines, not 50.  A misaligned [default:] gets no warning when its [choose]
    is on the first line, or 50 lines above it; it gets one when the [choose]
    is 49 lines above it. *)
Theorem choose_lookback_window :
  forall f blueprint,
    check_common_mistakes f blueprint ("- choose:" ++ LF ++ "  default:") new_validator
    = check_tree f blueprint new_validator
    /\ check_common_mistakes f blueprint
         ("x:" ++ LF ++ "choose:" ++ LF ++ repeat_text 49 ("#" ++ LF) ++ "default:")
         new_validator
       = check_tree f blueprint new_validator
    /\ check_common_mistakes f blueprint
         ("x:" ++ LF ++ "choose:" ++ LF ++ repeat_text 48 ("#" ++ LF) ++ "default:")
         new_validator
       = check_tree f blueprint
           (mkValidator []
              [mkValidationError f
                 "Possible indentation issue: 'default' at column 0 may be misaligned with 'choose' at column 0"
                 (Some 51%Z)]).
Proof.
  intros f blueprint. unfold check_common_mistakes.
  split; [|split].
  - rewrite (bind_ok _ _ _ tt new_validator) by reflexivity.
    rewrite (bind_ok _ _ _ tt new_validator) by (vm_compute; reflexivity).
    reflexivity.
  - rewrite (bind_ok _ _ _ tt new_validator) by reflexivity.
    rewrite (bind_ok _ _ _ tt new_validator) by (vm_compute; reflexivity).
    reflexivity.
  - rewrite (bind_ok _ _ _ tt new_validator) by reflexivity.
    erewrite bind_ok by (vm_compute; reflexivity).
    reflexivity.
Qed.

(** ** Concrete instances *)

(** A root sequence whose text holds an unclosed template: next to the error
    of the structure rule there is a warning, against C3 as it is worded. *)
Lemma list_root_text_warning :
  validate_blueprint sample_str_of_object
    (mkFile "blueprints/b.yaml" (Loaded ("- '{{ foo'" ++ LF) (VList [VStr "{{ foo"])))
    new_validator
  = (Ok tt,
     mkValidator
       [not_an_object "blueprints/b.yaml"]
       [mkValidationError "blueprints/b.yaml" "Possible unclosed template expression" (Some 1%Z)])
  /\ snd (validate_blueprint sample_str_of_object
            (mkFile "blueprints/b.yaml" (Loaded ("- '{{ foo'" ++ LF) (VList [VStr "{{ foo"])))
            new_validator)
     <> mkValidator [not_an_object "blueprints/b.yaml"] [].
Proof.
  split; [vm_compute; reflexivity|].
  vm_compute. intros H. discriminate H.
Qed.

Lemma plain_minimal_text : plain_text minimal_text.
Proof.
  split; [reflexivity|].
  intros l H. cbv in H.
  repeat (destruct H as [H|H]; [subst l; repeat split; intros; try reflexivity; discriminate|]).
  contradiction.
Qed.

Lemma list_root_one_error_witness :
  (forall key, In key ["blueprint"; "trigger"; "action"] -> ~ In (VStr key) [VStr "a"; VInt 1])
  /\ exists dw,
       validate_blueprint sample_str_of_object
         (mkFile "blueprints/b.yaml" (Loaded ("- a" ++ LF ++ "- 1" ++ LF) (VList [VStr "a"; VInt 1])))
         new_validator
       = (Ok tt, mkValidator ([] ++ [not_an_object "blueprints/b.yaml"]) ([] ++ dw))
       /\ check_common_mistakes "blueprints/b.yaml" VNone ("- a" ++ LF ++ "- 1" ++ LF) new_validator
          = (Ok tt, mkValidator [] dw)
       /\ (plain_text ("- a" ++ LF ++ "- 1" ++ LF) -> dw = []).
Proof.
  assert (H : forall key, In key ["blueprint"; "trigger"; "action"] ->
                          ~ In (VStr key) [VStr "a"; VInt 1]).
  { intros key Hk Hin. simpl in Hk, Hin.
    destruct Hin as [E|[E|[]]]; [|discriminate E].
    injection E as E. subst key.
    destruct Hk as [E|[E|[E|[]]]]; discriminate E. }
  split; [exact H|].
  exact (list_root_one_error sample_str_of_object "blueprints/b.yaml"
           ("- a" ++ LF ++ "- 1" ++ LF) [VStr "a"; VInt 1] new_validator H).
Defined.

Lemma parse_failure_is_one_error_witness :
  let bad := mkFile "blueprints/bad.yaml"
               (YAMLError "mapping values are not allowed here" (Some (mkMark 2))) in
  let good := mkFile "blueprints/minimal.yaml" (Loaded minimal_text minimal_blueprint) in
  (forall content blueprint, load bad <> Loaded content blueprint)
  /\ exists d,
       file d = "blueprints/bad.yaml"
       /\ message d = "YAML syntax error: mapping values are not allowed here"
       /\ line d = Some 3%Z
       /\ (forall s, validate_blueprint sample_str_of_object bad s =
                     (Ok tt, mkValidator (errors s ++ [d]) (warnings s)))
       /\ for_each ([good] ++ bad :: [good]) (validate_blueprint sample_str_of_object)
            new_validator =
          match for_each [good] (validate_blueprint sample_str_of_object) new_validator with
          | (Ok _, s1) =>
              for_each [good] (validate_blueprint sample_str_of_object)
                (mkValidator (errors s1 ++ [d]) (warnings s1))
          | (Raise e, s1) => (Raise e, s1)
          end.
Proof.
  intros bad good.
  assert (H : forall content blueprint, load bad <> Loaded content blueprint)
    by (intros content blueprint; discriminate).
  split; [exact H|].
  exact (parse_failure_is_one_error sample_str_of_object bad [good] [good] new_validator H).
Defined.

Lemma validate_structure_missing_keys_witness :
  [(VStr "blueprint", VDict [])] <> []
  /\ exists de,
       validate_structure "blueprints/b.yaml" (VDict [(VStr "blueprint", VDict [])]) new_validator
       = (Ok tt, mkValidator ([] ++ de) [])
       /\ NoDup de
       /\ forall d, In d de <->
                    exists key, In key ["blueprint"; "trigger"; "action"]
                                /\ dict_has [(VStr "blueprint", VDict [])] key = false
                                /\ d = missing_key "blueprints/b.yaml" key.
Proof.
  assert (H : [(VStr "blueprint", VDict [])] <> []) by discriminate.
  split; [exact H|].
  exact (validate_structure_missing_keys "blueprints/b.yaml"
           [(VStr "blueprint", VDict [])] new_validator H).
Defined.

Lemma validate_triggers_cases_witness :
  is_list (VDict [(VStr "platform", VStr "state")]) = false
  /\ validate_triggers "blueprints/b.yaml" (VDict [(VStr "platform", VStr "state")]) new_validator
     = (Ok tt, mkValidator
                 [mkValidationError "blueprints/b.yaml" "Triggers must be an array" None] []).
Proof.
  split; [reflexivity|].
  exact (proj1 (validate_triggers_cases "blueprints/b.yaml" new_validator)
           (VDict [(VStr "platform", VStr "state")]) eq_refl).
Defined.

Lemma unclosed_template_warning_per_line_witness :
  nth_error (PyStr.split_lines ("a: 1" ++ LF ++ "value: '{{ foo'" ++ LF)) 1
  = Some "value: '{{ foo'"
  /\ exists dw,
       snd (check_common_mistakes "blueprints/b.yaml" VNone
              ("a: 1" ++ LF ++ "value: '{{ foo'" ++ LF) new_validator)
       = mkValidator [] ([] ++ dw)
       /\ count (unclosed_template_at "blueprints/b.yaml" 2) dw = 1.
Proof.
  assert (H : nth_error (PyStr.split_lines ("a: 1" ++ LF ++ "value: '{{ foo'" ++ LF)) 1
              = Some "value: '{{ foo'") by reflexivity.
  split; [exact H|].
  exact (unclosed_template_warning_per_line "blueprints/b.yaml" VNone
           ("a: 1" ++ LF ++ "value: '{{ foo'" ++ LF) 1 "value: '{{ foo'" new_validator H).
Defined.

Lemma minimal_blueprint_is_clean_witness :
  plain_text minimal_text
  /\ validate_blueprint sample_str_of_object
       (mkFile "blueprints/minimal.yaml" (Loaded minimal_text minimal_blueprint)) new_validator
     = (Ok tt, new_validator).
Proof.
  split; [exact plain_minimal_text|].
  exact (minimal_blueprint_is_clean sample_str_of_object "blueprints/minimal.yaml"
           minimal_text new_validator plain_minimal_text).
Defined.


(** * Further properties of the rules *)

(** ** Roots that are not usable *)

(** X1: for a root that is falsy (an empty file, an empty mapping or
    sequence, an empty string, zero, false), validation returns and records
    the one error of the structure rule and no other error; its warnings are
    those of the heuristic pass on the text alone. *)
Theorem falsy_root_one_error :
  forall str_of_object f content blueprint self,
    truthy blueprint = false ->
    exists dw,
      validate_blueprint str_of_object (mkFile f (Loaded content blueprint)) self
      = (Ok tt, mkValidator (errors self ++ [not_an_object f]) (warnings self ++ dw))
      /\ check_common_mistakes f VNone content new_validator = (Ok tt, mkValidator [] dw).
Proof.
  intros str f content blueprint self Hf.
  destruct (text_checks_uniform f content) as [dw Hdw].
  exists dw. split.
  - unfold validate_blueprint. cbn [load rel_path]. rewrite Hf.
    assert (Hs : validate_structure f blueprint self =
                 (Ok tt, mkValidator (errors self ++ [not_an_object f]) (warnings self))).
    { unfold validate_structure. now rewrite Hf. }
    rewrite (bind_ok _ _ _ _ _ Hs).
    cbv beta iota delta [bind ret].
    rewrite Hdw. cbn [errors warnings]. unfold check_tree. now rewrite Hf.
  - rewrite Hdw. reflexivity.
Qed.

(** ** Metadata rule *)

Lemma validate_metadata_exact str_of_object f m self :
  validate_metadata str_of_object f (VDict m) self =
  (metadata_outcome str_of_object m,
   mkValidator
     (errors self
      ++ map (missing_meta f) (filter (fun k => negb (dict_has m k)) ["name"; "description"; "domain"])
      ++ domain_errors str_of_object f m)
     (warnings self
      ++ match metadata_outcome str_of_object m with
         | Ok _ =>
             match dict_lookup m "description" with
             | Some (VStr d) => if (PyStr.len d <? 10)%Z then [short_description f] else []
             | _ => []
             end
         | Raise _ => []
         end)).
Proof.
  unfold validate_metadata, REQUIRED_BLUEPRINT_META, for_each, py_contains, py_getitem,
    dict_has, VALID_DOMAINS, invalid_domain, missing_meta, short_description,
    metadata_outcome, domain_errors.
  cbn [filter map].
  destruct (dict_lookup m "name") as [vn|];
    destruct (dict_lookup m "description") as [vd|];
    destruct (dict_lookup m "domain") as [vo|];
    unfold bind, lift, ret, add_error, add_warning; cbn [negb errors warnings filter map app];
    try destruct (in_strs vo ["automation"; "script"]);
    cbn [negb errors warnings filter map app];
    try destruct (py_str str_of_object vo) as [text|e];
    try (destruct vd; try destruct (PyStr.len s <? 10)%Z);
    cbn [negb errors warnings filter map app];
    rewrite <- ?app_assoc; cbn [app]; rewrite ?app_nil_r, ?validator_eta; reflexivity.
Qed.

(** X2: the metadata rule on a mapping.  It raises only when [domain] holds a
    value other than [automation] and [script] that [str()] cannot print (an
    [int] beyond the digit limit), and then with that exception; otherwise it
    returns.  Its errors, without repetition, are the missing-key errors of
    the absent keys among [name], [description], [domain] and, when [domain]
    holds a printable value other than [automation] and [script], the error
    naming that value.  When it returns it warns, once, exactly when
    [description] is a string shorter than 10; when it raises it has not
    warned. *)
Theorem validate_metadata_mapping :
  forall str_of_object f m self,
    exists de dw,
      validate_metadata str_of_object f (VDict m) self
      = (match dict_lookup m "domain" with
         | Some v =>
             if eq_str v "automation" || eq_str v "script" then Ok tt
             else match py_str str_of_object v with
                  | Ok _ => Ok tt
                  | Raise e => Raise e
                  end
         | None => Ok tt
         end,
         mkValidator (errors self ++ de) (warnings self ++ dw))
      /\ NoDup de
      /\ (forall d, In d de <->
                    (exists key, In key ["name"; "description"; "domain"]
                                 /\ dict_has m key = false /\ d = missing_meta f key)
                    \/ (exists v text, dict_lookup m "domain" = Some v
                                       /\ eq_str v "automation" = false
                                       /\ eq_str v "script" = false
                                       /\ py_str str_of_object v = Ok text
                                       /\ d = invalid_domain f text))
      /\ dw = match metadata_outcome str_of_object m with
              | Ok _ =>
                  match dict_lookup m "description" with
                  | Some (VStr d) => if (PyStr.len d <? 10)%Z then [short_description f] else []
                  | _ => []
                  end
              | Raise _ => []
              end.
Proof.
  intros str f m self.
  exists (map (missing_meta f)
            (filter (fun k => negb (dict_has m k)) ["name"; "description"; "domain"])
          ++ domain_errors str f m).
  exists (match metadata_outcome str m with
          | Ok _ =>
              match dict_lookup m "description" with
              | Some (VStr d) => if (PyStr.len d <? 10)%Z then [short_description f] else []
              | _ => []
              end
          | Raise _ => []
          end).
  split.
  { rewrite validate_metadata_exact. f_equal.
    unfold metadata_outcome, in_strs. cbn [existsb].
    destruct (dict_lookup m "domain") as [v|]; [|reflexivity].
    now rewrite Bool.orb_false_r. }
  split; [|split; [|reflexivity]].
  - unfold domain_errors, dict_has, missing_meta, invalid_domain. cbn [filter].
    destruct (dict_lookup m "name"); destruct (dict_lookup m "description");
      destruct (dict_lookup m "domain") as [vo|];
      try destruct (in_strs vo ["automation"; "script"]);
      try destruct (py_str str vo) as [text|e];
      cbn [negb filter map app];
      repeat constructor; simpl; intuition congruence.
  - intros d. unfold domain_errors, in_strs. cbn [existsb filter].
    assert (Hdom : dict_has m "domain"
                   = match dict_lookup m "domain" with Some _ => true | None => false end)
      by reflexivity.
    destruct (dict_has m "name") eqn:Hn;
      destruct (dict_has m "description") eqn:Hd;
      destruct (dict_lookup m "domain") as [vo|] eqn:Ho;
      rewrite Hdom;
      try (destruct (eq_str vo "automation") eqn:Ea; destruct (eq_str vo "script") eqn:Es);
      try (destruct (py_str str vo) as [text|e] eqn:Hs);
      cbn [negb filter map app orb In];
      (split;
       [ intros Hin;
         repeat (destruct Hin as [Hin|Hin];
                 [ subst d;
                   first [ left; exists "name"; simpl; now auto
                         | left; exists "description"; simpl; now auto
                         | left; exists "domain"; simpl; now auto
                         | right; exists vo, text; now auto ]
                 | ]);
         contradiction
       | intros [[key [Hk [Hh Hm]]] | [w [t [Hw [Ha [Hs' [Ht Hm]]]]]]];
         [ simpl in Hk; destruct Hk as [Hk|[Hk|[Hk|[]]]]; subst key d;
           try congruence; simpl; now auto
         | try discriminate Hw; injection Hw as Hw; subst w d;
           try congruence;
           try (rewrite Hs in Ht; injection Ht as Ht; subst t); simpl; now auto ] ]).
Qed.

(** X3: when the metadata rule raises.  On a mapping it raises only what
    [str()] raises on an unprintable value of [domain] that is neither
    [automation] nor [script]; on a string, list, tuple or set it returns
    unless the value contains [domain] or [description] (as a substring, or as
    an item), in which case the subscript that follows the membership test
    raises [TypeError]; on any other value (the null of an empty [blueprint:]
    key, a number, a boolean, a timestamp, binary data) the first membership
    test raises [TypeError]. *)
Theorem validate_metadata_outcome :
  forall str_of_object f meta self,
    fst (validate_metadata str_of_object f meta self)
    = match meta with
      | VDict m =>
          match dict_lookup m "domain" with
          | Some v =>
              if eq_str v "automation" || eq_str v "script" then Ok tt
              else match py_str str_of_object v with
                   | Ok _ => Ok tt
                   | Raise e => Raise e
                   end
          | None => Ok tt
          end
      | VStr s =>
          if negb (PyStr.contains "domain" s) && negb (PyStr.contains "description" s)
          then Ok tt else Raise TypeError
      | VList l | VTuple l | VSet l =>
          if negb (existsb (fun e => eq_str e "domain") l)
             && negb (existsb (fun e => eq_str e "description") l)
          then Ok tt else Raise TypeError
      | _ => Raise TypeError
      end.
Proof.
  intros str f meta self.
  destruct meta; try reflexivity;
    try (unfold validate_metadata, REQUIRED_BLUEPRINT_META, for_each, py_contains, py_getitem;
         unfold bind, lift;
         match goal with
         | |- context [PyStr.contains "name" ?s] =>
             destruct (PyStr.contains "name" s), (PyStr.contains "description" s),
               (PyStr.contains "domain" s)
         | |- context [existsb (fun e => eq_str e "name") ?l] =>
             destruct (existsb (fun e => eq_str e "name") l),
               (existsb (fun e => eq_str e "description") l),
               (existsb (fun e => eq_str e "domain") l)
         end; reflexivity).
  rewrite validate_metadata_exact. cbn [fst].
  unfold metadata_outcome, in_strs. cbn [existsb].
  destruct (dict_lookup entries "domain") as [v|]; [|reflexivity].
  now rewrite Bool.orb_false_r.
Qed.

(** ** Inputs rule *)

Lemma in_strs_str (k : value) (names : list string) :
  in_strs k names = true -> exists s, k = VStr s.
Proof.
  unfold in_strs. intros H. apply existsb_exists in H. destruct H as [n [_ H]].
  destruct k; try discriminate H. now exists s.
Qed.

Lemma validate_inputs_entries str_of_object f entries :
  (forall e, In e entries -> needs_warning e = true ->
             exists text, py_str str_of_object (fst e) = Ok text) ->
  forall self,
    validate_inputs str_of_object f (VDict entries) self =
    (Ok tt,
     mkValidator (errors self ++ input_errors str_of_object f entries)
                 (warnings self ++ input_warnings str_of_object f entries)).
Proof.
  unfold validate_inputs, input_errors, input_warnings.
  induction entries as [|[k v] entries IH]; intros Hr self.
  - cbn. unfold ret. now rewrite !app_nil_r, validator_eta.
  - assert (IH' := IH (fun e He => Hr e (or_intror He))). clear IH.
    cbn [for_each flat_map filter map].
    unfold reserved_entry at 1, definition_lacks at 1 2. cbn [fst snd].
    destruct v;
      try (cbn [is_dict negb andb]; rewrite (bind_ok _ _ self tt self) by reflexivity;
           rewrite IH'; reflexivity).
    assert (Hres : in_strs k ["blueprint"; "trigger"; "condition"; "action"] = true ->
                   py_str str_of_object k = Ok (name_text str_of_object k)).
    { intros H. apply in_strs_str in H. destruct H as [s ->]. reflexivity. }
    assert (Hwarn : negb (dict_has entries0 "name") || negb (dict_has entries0 "selector") = true ->
                    py_str str_of_object k = Ok (name_text str_of_object k)).
    { intros H. destruct (Hr (k, VDict entries0) (or_introl eq_refl) H) as [text Ht].
      cbn [fst] in Ht. unfold name_text. now rewrite Ht. }
    cbn [is_dict negb andb]. unfold py_contains, reserved_keywords.
    destruct (dict_has entries0 "name"), (dict_has entries0 "selector"),
      (in_strs k ["blueprint"; "trigger"; "condition"; "action"]);
      cbn [negb orb] in Hwarn;
      try rewrite (Hwarn eq_refl); try rewrite (Hres eq_refl);
      unfold bind at 1; unfold bind, lift, ret, add_error, add_warning;
      cbn [negb errors warnings map app];
      try rewrite (Hwarn eq_refl); try rewrite (Hres eq_refl);
      rewrite IH'; cbn [errors warnings];
      rewrite <- ?app_assoc; reflexivity.
Qed.

(** X4: the inputs rule.  On a value that is not a mapping it records the one
    'must be an object' error.  On a mapping in which [str()] can print the
    name of every input that has a warning to receive (always so for names
    that are strings), it returns and records one error per entry that has a
    mapping for definition and a reserved word for name, and one warning per
    entry whose definition is a mapping without [name] plus one per entry
    whose definition is a mapping without [selector]; an entry whose
    definition is not a mapping adds nothing. *)
Theorem validate_inputs_counts :
  forall str_of_object f inputs self,
    match inputs with
    | VDict entries =>
        forall e, In e entries -> needs_warning e = true ->
                  exists text, py_str str_of_object (fst e) = Ok text
    | _ => True
    end ->
    exists de dw,
      validate_inputs str_of_object f inputs self
      = (Ok tt, mkValidator (errors self ++ de) (warnings self ++ dw))
      /\ match inputs with
         | VDict entries =>
             List.length de = List.length (filter reserved_entry entries)
             /\ List.length dw = List.length (filter (definition_lacks "name") entries)
                                 + List.length (filter (definition_lacks "selector") entries)
             /\ Forall (fun d => exists e, In e entries /\ reserved_entry e = true
                                           /\ d = reserved_name str_of_object f (fst e)) de
         | _ => de = [mkValidationError f "Blueprint inputs must be an object" None] /\ dw = []
         end.
Proof.
  intros str f inputs self Hr.
  destruct inputs as [ | | | | | | | | | |entries];
    try (exists [mkValidationError f "Blueprint inputs must be an object" None], [];
         split; [cbn [validate_inputs]; unfold validate_inputs, add_error;
                 now rewrite app_nil_r | split; reflexivity]).
  exists (input_errors str f entries), (input_warnings str f entries).
  split; [now apply validate_inputs_entries|].
  unfold input_errors, input_warnings. split; [now rewrite length_map|]. split.
  - clear Hr. induction entries as [|e entries IH]; [reflexivity|].
    cbn [flat_map filter]. rewrite !length_app, IH.
    destruct (definition_lacks "name" e), (definition_lacks "selector" e);
      cbn [List.length]; lia.
  - apply Forall_forall. intros d Hd. apply in_map_iff in Hd.
    destruct Hd as [e [<- He]]. apply filter_In in He. destruct He as [He Hres].
    exists e. auto.
Qed.

(** ** Actions rule *)

(** X5: the actions rule on a value that is not a sequence records one error
    and nothing else; on the empty sequence one warning and no error; on a
    non-empty sequence nothing, whatever the items are. *)
Theorem validate_actions_cases :
  forall f self,
    (forall actions,
        is_list actions = false ->
        validate_actions f actions self =
          (Ok tt, mkValidator
                    (errors self ++ [mkValidationError f "Actions must be an array" None])
                    (warnings self)))
    /\ validate_actions f (VList []) self =
         (Ok tt, mkValidator
                   (errors self)
                   (warnings self ++ [mkValidationError f "No actions defined" None]))
    /\ (forall a items, validate_actions f (VList (a :: items)) self = (Ok tt, self)).
Proof.
  intros f self. split; [|split].
  - intros actions Hl. destruct actions; try discriminate Hl; reflexivity.
  - reflexivity.
  - intros a items. unfold validate_actions.
    change (Z.of_nat (List.length (a :: items)) =? 0)%Z with false. reflexivity.
Qed.

(** * Further properties of the heuristic pass *)

(** ** What the loop over the lines appends *)

Lemma append_nothing self : mkValidator (errors self) (warnings self ++ []) = self.
Proof. now rewrite app_nil_r, validator_eta. Qed.

Lemma look_backwards_exact f lines default_indent line_num :
  forall js,
    (forall j, In j js -> (0 <= j < Z.of_nat (List.length lines))%Z) ->
    forall self,
      look_backwards f lines default_indent line_num js self =
      (Ok tt,
       mkValidator (errors self)
         (warnings self
          ++ match first_choose lines js with
             | Some prev =>
                 if (default_indent =? expected_default_indent prev)%Z then []
                 else [indentation_warning f default_indent (indent_of prev) line_num]
             | None => []
             end)).
Proof.
  induction js as [|j js IH]; intros Hjs self.
  - cbn. unfold ret. now rewrite append_nothing.
  - cbn [look_backwards first_choose].
    destruct (py_index_in_range lines j (Hjs j (or_introl eq_refl))) as [prev Hprev].
    rewrite Hprev. unfold bind at 1, lift at 1. unfold is_choose_line.
    destruct (PyStr.contains "- choose:" (PyStr.strip prev) || (PyStr.strip prev =? "choose:")%string).
    + unfold expected_default_indent.
      destruct (default_indent =?
                (if PyStr.startswith (PyStr.strip prev) "-" then indent_of prev
                 else indent_of prev + 2))%Z; cbn [negb].
      * unfold ret. now rewrite append_nothing.
      * reflexivity.
    + apply IH. intros j' Hj'. apply Hjs. now right.
Qed.

Lemma check_line_exact f lines i l :
  (0 <= i < Z.of_nat (List.length lines))%Z ->
  forall self,
    check_line f lines i l self =
    (Ok tt, mkValidator (errors self) (warnings self ++ line_warnings f lines i l)).
Proof.
  intros Hi self. unfold check_line, line_warnings, default_warnings.
  assert (HA : forall s,
    (if PyStr.startswith (PyStr.strip l) "default:"
     then look_backwards f lines (indent_of l) (i + 1)
            (py_range_down (i - 1) (Z.max 0 (i - 50)))
     else ret tt) s =
    (Ok tt, mkValidator (errors s)
              (warnings s ++
               (if PyStr.startswith (PyStr.strip l) "default:" then
                  match first_choose lines (py_range_down (i - 1) (Z.max 0 (i - 50))) with
                  | Some prev =>
                      if (indent_of l =? expected_default_indent prev)%Z then []
                      else [indentation_warning f (indent_of l) (indent_of prev) (i + 1)]
                  | None => []
                  end
                else [])))).
  { intros s. destruct (PyStr.startswith (PyStr.strip l) "default:").
    - apply look_backwards_exact. intros j Hj. apply py_range_down_bounds in Hj. lia.
    - unfold ret. now rewrite append_nothing. }
  rewrite (bind_ok _ _ _ _ _ (HA self)).
  assert (HB : forall s,
    (if PyStr.contains "{{" l && negb (PyStr.contains "}}" l)
     then
       if negb (existsb (fun c => PyStr.endswith (PyStr.strip l) c) block_scalar_suffixes)
       then add_warning f "Possible unclosed template expression" (Some (i + 1)%Z)
       else ret tt
     else ret tt) s =
    (Ok tt, mkValidator (errors s)
              (warnings s ++ (if template_test l then [unclosed_warning f (i + 1)] else [])))).
  { intros s. unfold template_test.
    destruct (PyStr.contains "{{" l && negb (PyStr.contains "}}" l)); cbn [andb].
    - destruct (negb (existsb _ block_scalar_suffixes)); [reflexivity|].
      unfold ret. now rewrite append_nothing.
    - unfold ret. now rewrite append_nothing. }
  rewrite (bind_ok _ _ _ _ _ (HB _)). cbn [errors warnings].
  destruct (PyStr.contains "  - condition: !input" l).
  - unfold add_warning. cbn [errors warnings]. now rewrite <- !app_assoc.
  - unfold ret. now rewrite app_nil_r, <- !app_assoc.
Qed.

Lemma check_lines_exact f lines :
  forall rest s,
    (0 <= s)%Z ->
    (s + Z.of_nat (List.length rest) <= Z.of_nat (List.length lines))%Z ->
    forall self,
      check_lines f lines s rest self =
      (Ok tt, mkValidator (errors self) (warnings self ++ lines_warnings f lines s rest)).
Proof.
  induction rest as [|l rest IH]; intros s Hs Hlen self.
  - cbn. unfold ret. now rewrite append_nothing.
  - cbn [check_lines lines_warnings]. cbn [List.length] in Hlen.
    rewrite (bind_ok _ _ _ _ _ (check_line_exact f lines s l ltac:(lia) self)).
    rewrite IH by lia. cbn [errors warnings]. now rewrite <- app_assoc.
Qed.

(** The heuristic pass is the checks on the tree run after the warnings of
    the text have been appended. *)
Lemma check_common_mistakes_exact f blueprint content self :
  check_common_mistakes f blueprint content self =
  check_tree f blueprint
    (mkValidator (errors self) (warnings self ++ text_warnings f content)).
Proof.
  unfold check_common_mistakes, text_warnings. fold TAB.
  assert (HT : (if PyStr.contains TAB content
                then add_warning f "File contains tabs. YAML should use spaces for indentation" None
                else ret tt) self =
               (Ok tt, mkValidator (errors self)
                         (warnings self ++ (if PyStr.contains TAB content
                                            then [tabs_warning f] else [])))).
  { destruct (PyStr.contains TAB content); [reflexivity|].
    unfold ret. now rewrite append_nothing. }
  rewrite (bind_ok _ _ _ _ _ HT).
  rewrite (bind_ok _ _ _ _ _
             (check_lines_exact f (PyStr.split_lines content) (PyStr.split_lines content)
                0%Z ltac:(lia) ltac:(lia) _)).
  cbn [errors warnings]. now rewrite <- app_assoc.
Qed.

Lemma same_diagnostic_eq a b : same_diagnostic a b = true <-> a = b.
Proof.
  destruct a as [fa ma la], b as [fb mb lb]. unfold same_diagnostic. cbn [file message line].
  split.
  - intros H. apply Bool.andb_true_iff in H. destruct H as [H Hl].
    apply Bool.andb_true_iff in H. destruct H as [Hf Hm].
    apply String.eqb_eq in Hf, Hm. subst.
    destruct la, lb; try discriminate Hl; [|reflexivity].
    apply Z.eqb_eq in Hl. now subst.
  - intros E. injection E as -> -> ->. rewrite !String.eqb_refl.
    destruct lb; [now rewrite Z.eqb_refl | reflexivity].
Qed.

Lemma same_diagnostic_neq a b : a <> b -> same_diagnostic a b = false.
Proof.
  intros H. destruct (same_diagnostic a b) eqn:E; [|reflexivity].
  apply same_diagnostic_eq in E. contradiction.
Qed.

Lemma line_warnings_located f lines i l d :
  In d (line_warnings f lines i l) -> file d = f /\ line d = Some (i + 1)%Z.
Proof.
  unfold line_warnings, default_warnings. intros H.
  repeat (apply in_app_or in H; destruct H as [H|H]);
    repeat match type of H with
           | In _ (if ?b then _ else _) => destruct b
           | In _ (match ?x with Some _ => _ | None => _ end) => destruct x
           end;
    try contradiction; destruct H as [<-|[]]; split; reflexivity.
Qed.

Lemma lines_warnings_located f lines :
  forall rest s d,
    In d (lines_warnings f lines s rest) ->
    file d = f
    /\ exists n, line d = Some n /\ (s + 1 <= n <= s + Z.of_nat (List.length rest))%Z.
Proof.
  induction rest as [|l rest IH]; intros s d H; [contradiction|].
  cbn [lines_warnings] in H. apply in_app_or in H. destruct H as [H|H].
  - apply line_warnings_located in H. destruct H as [Hf Hl].
    split; [exact Hf|]. exists (s + 1)%Z. cbn [List.length]. split; [exact Hl | lia].
  - apply IH in H. destruct H as [Hf [n [Hl Hn]]].
    split; [exact Hf|]. exists n. cbn [List.length]. split; [exact Hl | lia].
Qed.

(** A test that fixes the line number sees, in what the loop appends, only
    the warnings of the line with that number. *)
Lemma count_lines_warnings f lines (q : ValidationError -> bool) (n : Z) :
  (forall d, q d = true -> line d = Some n) ->
  forall rest s,
    count q (lines_warnings f lines s rest) =
    match (if (s + 1 <=? n)%Z then nth_error rest (Z.to_nat (n - 1 - s)) else None) with
    | Some l => count q (line_warnings f lines (n - 1) l)
    | None => 0
    end.
Proof.
  intros Hq. induction rest as [|l rest IH]; intros s.
  - cbn [lines_warnings]. destruct (s + 1 <=? n)%Z; [|reflexivity].
    now destruct (Z.to_nat (n - 1 - s)).
  - cbn [lines_warnings]. rewrite count_app, IH.
    destruct (Z.eq_dec n (s + 1)) as [En|En].
    + subst n.
      replace (s + 1 + 1 <=? s + 1)%Z with false by (symmetry; apply Z.leb_gt; lia).
      replace (s + 1 <=? s + 1)%Z with true by (symmetry; apply Z.leb_le; lia).
      replace (s + 1 - 1 - s)%Z with 0%Z by lia.
      replace (s + 1 - 1)%Z with s by lia. cbn [Z.to_nat nth_error]. lia.
    + rewrite (count_none q (line_warnings f lines s l)).
      * destruct (s + 1 <=? n)%Z eqn:Le.
        -- apply Z.leb_le in Le.
           replace (s + 1 + 1 <=? n)%Z with true by (symmetry; apply Z.leb_le; lia).
           replace (Z.to_nat (n - 1 - s)) with (S (Z.to_nat (n - 1 - (s + 1)))) by lia.
           reflexivity.
        -- apply Z.leb_gt in Le.
           replace (s + 1 + 1 <=? n)%Z with false by (symmetry; apply Z.leb_gt; lia).
           reflexivity.
      * apply Forall_forall. intros d Hd.
        destruct (q d) eqn:E; [|reflexivity].
        apply Hq in E. apply line_warnings_located in Hd. destruct Hd as [_ Hl].
        rewrite Hl in E. injection E as E. lia.
Qed.

Ltac warns_only_with tac :=
  repeat first
    [ apply warns_only_ret
    | apply warns_only_lift
    | apply warns_only_add_warning; tac
    | apply warns_only_bind; [|intros]
    | match goal with |- warns_only _ (if ?b then _ else _) => destruct b end
    | match goal with |- warns_only _ (match ?x with _ => _ end) => destruct x end
    | progress cbv zeta ].

Lemma check_tree_located f blueprint :
  warns_only (fun d => file d = f /\ line d = None) (check_tree f blueprint).
Proof.
  unfold check_tree. warns_only_with ltac:(split; reflexivity).
Qed.

(** X6: every warning of the heuristic pass names the file it was called
    with, and when it carries a line number that number is between 1 and the
    number of lines of the text; the pass records no error. *)
Theorem heuristic_warnings_located :
  forall f blueprint content self,
    exists dw,
      snd (check_common_mistakes f blueprint content self)
      = mkValidator (errors self) (warnings self ++ dw)
      /\ Forall (fun d =>
                   file d = f
                   /\ match line d with
                      | None => True
                      | Some n => (1 <= n <= Z.of_nat (List.length (PyStr.split_lines content)))%Z
                      end) dw.
Proof.
  intros f blueprint content self.
  rewrite check_common_mistakes_exact.
  destruct (check_tree_located f blueprint
              (mkValidator (errors self) (warnings self ++ text_warnings f content)))
    as [dw [E F]].
  exists (text_warnings f content ++ dw). split.
  - rewrite E. cbn [errors warnings]. now rewrite app_assoc.
  - apply Forall_app. split.
    + unfold text_warnings. apply Forall_app. split.
      * destruct (PyStr.contains TAB content); repeat constructor.
      * apply Forall_forall. intros d Hd. apply lines_warnings_located in Hd.
        destruct Hd as [Hf [n [Hl Hn]]]. split; [exact Hf|]. rewrite Hl. lia.
    + eapply Forall_impl; [|exact F]. intros d [Hf Hl]. split; [exact Hf|].
      now rewrite Hl.
Qed.

Ltac all_differ :=
  repeat (constructor;
          try (apply same_diagnostic_neq;
               unfold condition_input_warning, tabs_warning, unclosed_warning,
                 indentation_warning;
               let H := fresh "Hsame" in intros H; cbn in H; discriminate H)).

Lemma default_warnings_shape f lines i l :
  default_warnings f lines i l = []
  \/ exists prev,
       default_warnings f lines i l
       = [indentation_warning f (indent_of l) (indent_of prev) (i + 1)].
Proof.
  unfold default_warnings.
  destruct (PyStr.startswith (PyStr.strip l) "default:"); [|now left].
  destruct (first_choose lines _) as [prev|]; [|now left].
  destruct (indent_of l =? expected_default_indent prev)%Z; [now left|].
  right. now exists prev.
Qed.

Lemma summary_not_tabs f z rest :
  mkValidationError f (PyStr.str_of_int z ++ " input(s) without default values: " ++ rest) None
  <> tabs_warning f.
Proof.
  unfold tabs_warning, PyStr.str_of_int. intros E. injection E as E.
  destruct (Z.to_int z) as [u|u]; destruct u; discriminate E.
Qed.

Lemma check_tree_no_tabs_warning f blueprint :
  warns_only (fun d => d <> tabs_warning f) (check_tree f blueprint).
Proof.
  unfold check_tree.
  warns_only_with ltac:(first [ apply summary_not_tabs
                              | intros E; injection E as E; discriminate E ]).
Qed.

(** X7: the heuristic pass records the tab warning exactly once when the text
    holds a tab anywhere, however many there are, and not at all otherwise. *)
Theorem tabs_warning_once :
  forall f blueprint content self,
    exists dw,
      snd (check_common_mistakes f blueprint content self)
      = mkValidator (errors self) (warnings self ++ dw)
      /\ count (same_diagnostic (tabs_warning f)) dw
         = if PyStr.contains TAB content then 1 else 0.
Proof.
  intros f blueprint content self.
  rewrite check_common_mistakes_exact.
  destruct (check_tree_no_tabs_warning f blueprint
              (mkValidator (errors self) (warnings self ++ text_warnings f content)))
    as [dw [E F]].
  exists (text_warnings f content ++ dw). split.
  - rewrite E. cbn [errors warnings]. now rewrite app_assoc.
  - unfold text_warnings. rewrite !count_app.
    rewrite (count_none _ (lines_warnings _ _ _ _)), (count_none _ dw).
    + destruct (PyStr.contains TAB content); [|reflexivity].
      unfold count. cbn [filter].
      now rewrite (proj2 (same_diagnostic_eq _ _) eq_refl).
    + eapply Forall_impl; [|exact F]. intros d Hd.
      apply same_diagnostic_neq. congruence.
    + apply Forall_forall. intros d Hd. apply lines_warnings_located in Hd.
      destruct Hd as [_ [n [Hl _]]]. apply same_diagnostic_neq.
      intros <-. discriminate Hl.
Qed.

(** X8: for every line of the text, the heuristic pass records the warning
    about [!input] in a condition list, with that line's 1-based number,
    exactly once when the line contains [  - condition: !input] (the two
    leading spaces included) and not at all otherwise. *)
Theorem condition_input_warning_per_line :
  forall f blueprint content i l self,
    nth_error (PyStr.split_lines content) i = Some l ->
    exists dw,
      snd (check_common_mistakes f blueprint content self)
      = mkValidator (errors self) (warnings self ++ dw)
      /\ count (same_diagnostic (condition_input_warning f (Z.of_nat i + 1))) dw
         = if PyStr.contains "  - condition: !input" l then 1 else 0.
Proof.
  intros f blueprint content i l self Hl.
  set (n := (Z.of_nat i + 1)%Z).
  rewrite check_common_mistakes_exact.
  destruct (check_tree_warns_only f blueprint
              (mkValidator (errors self) (warnings self ++ text_warnings f content)))
    as [dw [E F]].
  exists (text_warnings f content ++ dw). split.
  - rewrite E. cbn [errors warnings]. now rewrite app_assoc.
  - unfold text_warnings. rewrite !count_app.
    rewrite (count_none _ dw).
    2:{ eapply Forall_impl; [|exact F]. intros d Hd. apply same_diagnostic_neq.
        intros <-. discriminate Hd. }
    rewrite (count_none _ (if PyStr.contains TAB content then _ else _)).
    2:{ destruct (PyStr.contains TAB content); all_differ. }
    rewrite (count_lines_warnings f _ _ n).
    2:{ intros d Hd. apply same_diagnostic_eq in Hd. now subst d. }
    replace (0 + 1 <=? n)%Z with true by (symmetry; apply Z.leb_le; lia).
    replace (Z.to_nat (n - 1 - 0)) with i by lia. rewrite Hl.
    replace (n - 1)%Z with (Z.of_nat i) by lia.
    unfold line_warnings. rewrite !count_app.
    rewrite (count_none _ (default_warnings _ _ _ _)).
    2:{ destruct (default_warnings_shape f (PyStr.split_lines content) (Z.of_nat i) l)
          as [->|[prev ->]]; all_differ. }
    rewrite (count_none _ (if template_test l then _ else _)).
    2:{ destruct (template_test l); all_differ. }
    destruct (PyStr.contains "  - condition: !input" l); [|reflexivity].
    unfold count. cbn [filter]. fold n.
    now rewrite (proj2 (same_diagnostic_eq _ _) eq_refl).
Qed.

(** ** The backward scan for [choose] *)

Lemma py_range_down_nil (a b : Z) : (a <= b)%Z -> py_range_down a b = [].
Proof.
  intros H. unfold py_range_down. now replace (Z.to_nat (a - b)) with 0 by lia.
Qed.

Lemma py_range_down_step (a b : Z) :
  (b < a)%Z -> py_range_down a b = a :: py_range_down (a - 1) b.
Proof.
  intros H. unfold py_range_down.
  replace (Z.to_nat (a - b)) with (S (Z.to_nat (a - 1 - b))) by lia.
  cbn [seq map]. f_equal; [lia|].
  rewrite <- seq_shift, map_map. apply map_ext. intros k. lia.
Qed.

Lemma py_index_nth {A : Type} (l : list A) (j : Z) (a : A) :
  (0 <= j)%Z -> (py_index l j = Ok a <-> nth_error l (Z.to_nat j) = Some a).
Proof.
  intros H. unfold py_index.
  replace (j <? 0)%Z with false by (symmetry; apply Z.ltb_ge; lia).
  replace (j <? 0)%Z with false by (symmetry; apply Z.ltb_ge; lia).
  destruct (nth_error l (Z.to_nat j)); split; intros E; congruence.
Qed.

(** What the scan over [range(a, b, -1)] stops at: the nearest line above
    that passes the test, if there is one among the indices [b+1 .. a]. *)
Lemma first_choose_range (lines : list string) (b : Z) :
  forall m a,
    Z.to_nat (a - b) = m ->
    (0 <= b)%Z -> (a < Z.of_nat (List.length lines))%Z ->
    match first_choose lines (py_range_down a b) with
    | Some prev =>
        exists j, (b < j <= a)%Z
                  /\ py_index lines j = Ok prev
                  /\ is_choose_line prev = true
                  /\ forall k p, (j < k <= a)%Z -> py_index lines k = Ok p ->
                                 is_choose_line p = false
    | None =>
        forall k p, (b < k <= a)%Z -> py_index lines k = Ok p -> is_choose_line p = false
    end.
Proof.
  induction m as [|m IH]; intros a Hm Hb Ha.
  - rewrite py_range_down_nil by lia. cbn. intros k p Hk. lia.
  - rewrite py_range_down_step by lia. cbn [first_choose].
    destruct (py_index_in_range lines a ltac:(lia)) as [prev Hprev]. rewrite Hprev.
    destruct (is_choose_line prev) eqn:Hc.
    + exists a. split; [lia|]. split; [exact Hprev|]. split; [exact Hc|].
      intros k p Hk. lia.
    + specialize (IH (a - 1)%Z ltac:(lia) Hb ltac:(lia)).
      destruct (first_choose lines (py_range_down (a - 1) b)) as [prev'|].
      * destruct IH as [j [Hj [Hi [Hcj Hnear]]]].
        exists j. split; [lia|]. split; [exact Hi|]. split; [exact Hcj|].
        intros k p Hk Hp. destruct (Z.eq_dec k a) as [->|Hne].
        -- congruence.
        -- apply (Hnear k p); [lia | exact Hp].
      * intros k p Hk Hp. destruct (Z.eq_dec k a) as [->|Hne].
        -- congruence.
        -- apply (IH k p); [lia | exact Hp].
Qed.

Lemma indentation_warning_at_true f a b n :
  indentation_warning_at f n (indentation_warning f a b n) = true.
Proof.
  unfold indentation_warning_at, indentation_warning. cbn [file message line].
  rewrite String.eqb_refl, Z.eqb_refl. cbn. reflexivity.
Qed.

Lemma count_indentation_line f lines i l :
  count (indentation_warning_at f (i + 1)) (line_warnings f lines i l)
  = List.length (default_warnings f lines i l).
Proof.
  unfold line_warnings. rewrite !count_app.
  rewrite (count_none _ (if template_test l then _ else _)).
  2:{ destruct (template_test l); repeat constructor.
      unfold indentation_warning_at, unclosed_warning. cbn [file message line].
      replace (PyStr.startswith "Possible unclosed template expression"
                 "Possible indentation issue") with false by reflexivity.
      now rewrite Bool.andb_false_r. }
  rewrite (count_none _ (if PyStr.contains _ l then _ else _)).
  2:{ destruct (PyStr.contains _ l); repeat constructor.
      unfold indentation_warning_at, condition_input_warning. cbn [file message line].
      replace (PyStr.startswith "Possible incorrect !input usage in condition list"
                 "Possible indentation issue") with false by reflexivity.
      now rewrite Bool.andb_false_r. }
  destruct (default_warnings_shape f lines i l) as [->|[prev ->]]; [reflexivity|].
  unfold count. cbn [filter]. now rewrite indentation_warning_at_true.
Qed.

Lemma indentation_warning_at_line f n d :
  indentation_warning_at f n d = true -> line d = Some n.
Proof.
  unfold indentation_warning_at. intros H.
  apply Bool.andb_true_iff in H. destruct H as [_ H].
  destruct (line d) as [m|]; [|discriminate H].
  apply Z.eqb_eq in H. now subst.
Qed.

(** How the choose/default check decides for the line at index [i]. *)
Lemma default_warnings_decision f (lines : list string) (i : nat) (l : string) :
  (i < List.length lines)%nat ->
  (List.length (default_warnings f lines (Z.of_nat i) l) <= 1)%nat
  /\ (List.length (default_warnings f lines (Z.of_nat i) l) = 1 <->
      PyStr.startswith (PyStr.strip l) "default:" = true
      /\ exists j prev,
           (Nat.max 1 (i - 49) <= j < i)%nat
           /\ nth_error lines j = Some prev
           /\ is_choose_line prev = true
           /\ (forall k p, (j < k < i)%nat -> nth_error lines k = Some p ->
                           is_choose_line p = false)
           /\ indent_of l <> expected_default_indent prev).
Proof.
  intros Hi. split.
  { destruct (default_warnings_shape f lines (Z.of_nat i) l) as [->|[prev ->]];
      cbn [List.length]; lia. }
  unfold default_warnings.
  destruct (PyStr.startswith (PyStr.strip l) "default:").
  2:{ cbn [List.length]. split; [discriminate | intros [H _]; discriminate H]. }
  pose proof (first_choose_range lines (Z.max 0 (Z.of_nat i - 50)) _ (Z.of_nat i - 1)%Z
                eq_refl ltac:(lia) ltac:(lia)) as Hscan.
  destruct (first_choose lines _) as [prev|].
  - destruct Hscan as [j [Hj [Hidx [Hc Hnear]]]].
    apply py_index_nth in Hidx; [|lia].
    assert (Hsame : forall j' prev',
               (Nat.max 1 (i - 49) <= j' < i)%nat ->
               nth_error lines j' = Some prev' ->
               is_choose_line prev' = true ->
               (forall k p, (j' < k < i)%nat -> nth_error lines k = Some p ->
                            is_choose_line p = false) ->
               prev' = prev).
    { intros j' prev' Hj' Hidx' Hc' Hnear'.
      destruct (Z.lt_trichotomy (Z.of_nat j') j) as [Hlt|[Heq|Hgt]].
      - rewrite (Hnear' (Z.to_nat j) prev ltac:(lia) Hidx) in Hc. discriminate Hc.
      - subst j. rewrite Nat2Z.id in Hidx. congruence.
      - assert (E : py_index lines (Z.of_nat j') = Ok prev').
        { apply py_index_nth; [lia|]. now rewrite Nat2Z.id. }
        rewrite (Hnear (Z.of_nat j') prev' ltac:(lia) E) in Hc'. discriminate Hc'. }
    destruct (indent_of l =? expected_default_indent prev)%Z eqn:Hind; cbn [List.length].
    + apply Z.eqb_eq in Hind. split; [discriminate|].
      intros [_ [j' [prev' [Hj' [Hidx' [Hc' [Hnear' Hne]]]]]]].
      rewrite (Hsame j' prev' Hj' Hidx' Hc' Hnear') in Hne. contradiction.
    + apply Z.eqb_neq in Hind. split; [|reflexivity]. intros _. split; [reflexivity|].
      exists (Z.to_nat j), prev. split; [lia|]. split; [exact Hidx|]. split; [exact Hc|].
      split; [|exact Hind].
      intros k p Hk Hp. apply (Hnear (Z.of_nat k) p); [lia|].
      apply py_index_nth; [lia|]. now rewrite Nat2Z.id.
  - cbn [List.length]. split; [discriminate|].
    intros [_ [j' [prev' [Hj' [Hidx' [Hc' _]]]]]].
    assert (E : py_index lines (Z.of_nat j') = Ok prev').
    { apply py_index_nth; [lia|]. now rewrite Nat2Z.id. }
    rewrite (Hscan (Z.of_nat j') prev' ltac:(lia) E) in Hc'. discriminate Hc'.
Qed.

(** X9: the choose/default check as the code runs it.  For the line at index
    [i], the heuristic pass records at most one indentation warning with that
    line's number, and records one exactly when the line's trimmed form
    starts with [default:] and, among the lines at the indices from
    max(1, i - 49) to i - 1, the nearest one above that is a [choose] line
    has an expected column different from the line's indentation.  The first
    line of the text and the lines 50 or more above are never looked at. *)
Theorem default_indentation_warning :
  forall f blueprint content i l self,
    nth_error (PyStr.split_lines content) i = Some l ->
    exists dw,
      snd (check_common_mistakes f blueprint content self)
      = mkValidator (errors self) (warnings self ++ dw)
      /\ (count (indentation_warning_at f (Z.of_nat i + 1)) dw <= 1)%nat
      /\ (count (indentation_warning_at f (Z.of_nat i + 1)) dw = 1 <->
          PyStr.startswith (PyStr.strip l) "default:" = true
          /\ exists j prev,
               (Nat.max 1 (i - 49) <= j < i)%nat
               /\ nth_error (PyStr.split_lines content) j = Some prev
               /\ is_choose_line prev = true
               /\ (forall k p, (j < k < i)%nat ->
                               nth_error (PyStr.split_lines content) k = Some p ->
                               is_choose_line p = false)
               /\ indent_of l <> expected_default_indent prev).
Proof.
  intros f blueprint content i l self Hl.
  set (n := (Z.of_nat i + 1)%Z).
  rewrite check_common_mistakes_exact.
  destruct (check_tree_warns_only f blueprint
              (mkValidator (errors self) (warnings self ++ text_warnings f content)))
    as [dw [E F]].
  exists (text_warnings f content ++ dw).
  assert (Hcount : count (indentation_warning_at f n) (text_warnings f content ++ dw)
                   = List.length (default_warnings f (PyStr.split_lines content)
                                    (Z.of_nat i) l)).
  { unfold text_warnings. rewrite !count_app.
    rewrite (count_none _ dw).
    2:{ eapply Forall_impl; [|exact F]. intros d Hd.
        destruct (indentation_warning_at f n d) eqn:Hq; [|reflexivity].
        apply indentation_warning_at_line in Hq. congruence. }
    rewrite (count_none _ (if PyStr.contains TAB content then _ else _)).
    2:{ destruct (PyStr.contains TAB content); repeat constructor.
        unfold indentation_warning_at, tabs_warning. cbn [line].
        now rewrite Bool.andb_false_r. }
    rewrite (count_lines_warnings f _ _ n (indentation_warning_at_line f n)).
    replace (0 + 1 <=? n)%Z with true by (symmetry; apply Z.leb_le; lia).
    replace (Z.to_nat (n - 1 - 0)) with i by lia. rewrite Hl.
    replace (n - 1)%Z with (Z.of_nat i) by lia.
    unfold n. rewrite count_indentation_line. lia. }
  split.
  - rewrite E. cbn [errors warnings]. now rewrite app_assoc.
  - rewrite Hcount. apply default_warnings_decision.
    apply nth_error_Some. congruence.
Qed.

(** ** The checks on the tree *)

Lemma filter_lacks_default (items : list (value * value)) :
  filter (fun '(_, def_) => match def_ with
                            | VDict d => negb (dict_has d "default")
                            | _ => false
                            end) items
  = filter (definition_lacks "default") items.
Proof.
  apply filter_ext. intros [k v]. reflexivity.
Qed.

(** X10: the heuristic pass on a well-shaped tree.  When the root is a
    non-empty mapping, [blueprint] is absent or a mapping, [input] is absent
    or a mapping, and the first three inputs without default have strings for
    names, the pass returns, records no error, and appends: the warnings of
    the text; then the mode warning exactly when [blueprint.domain] is
    [automation] and the root has no [mode]; then, exactly when some input
    whose definition is a mapping lacks [default], one summary that counts
    all of them and shows the first three names, followed by [...] when there
    are more. *)
Theorem heuristic_tree_checks :
  forall f entries m items shown content self,
    entries <> [] ->
    mapping_at entries "blueprint" = VDict m ->
    mapping_at m "input" = VDict items ->
    strs_of (firstn 3 (inputs_without_defaults items)) = Ok shown ->
    exists dwt,
      check_common_mistakes f VNone content new_validator = (Ok tt, mkValidator [] dwt)
      /\ check_common_mistakes f (VDict entries) content self
         = (Ok tt,
            mkValidator (errors self)
              (warnings self ++ dwt
               ++ (if eq_str (match dict_lookup m "domain" with
                              | Some v => v
                              | None => VNone
                              end) "automation"
                      && negb (dict_has entries "mode")
                   then [mode_warning f] else [])
               ++ (match inputs_without_defaults items with
                   | [] => []
                   | _ :: _ => [summary_warning f
                                  (List.length (inputs_without_defaults items)) shown]
                   end))).
Proof.
  intros f entries m items shown content self Hne Hm Hi Hshown.
  exists (text_warnings f content). split.
  { rewrite check_common_mistakes_exact. reflexivity. }
  rewrite check_common_mistakes_exact.
  set (s0 := mkValidator (errors self) (warnings self ++ text_warnings f content)).
  unfold check_tree.
  replace (truthy (VDict entries) && is_dict (VDict entries)) with true
    by (destruct entries; [congruence | reflexivity]).
  cbv iota.
  assert (Hget : py_get (VDict entries) "blueprint" (VDict []) = Ok (VDict m)).
  { unfold py_get. unfold mapping_at in Hm. now rewrite Hm. }
  rewrite Hget. unfold bind at 1, lift at 1.
  unfold bind at 1, lift at 1. cbn [py_get].
  set (domain := match dict_lookup m "domain" with Some v => v | None => VNone end).
  set (mode_w := if eq_str domain "automation" && negb (dict_has entries "mode")
                 then [mode_warning f] else []).
  assert (Hmode : forall s,
    (if eq_str domain "automation" then
       has_mode <- lift (py_contains "mode" (VDict entries)) ;;
       if negb has_mode then
         add_warning f ("Consider setting " ++ dquote ++ "mode" ++ dquote
                        ++ " for automation (e.g., restart, single, parallel)") None
       else ret tt
     else ret tt) s = (Ok tt, mkValidator (errors s) (warnings s ++ mode_w))).
  { intros s. unfold mode_w. destruct (eq_str domain "automation"); cbn [andb].
    - unfold bind, lift, py_contains. destruct (dict_has entries "mode"); cbn [negb].
      + unfold ret. now rewrite append_nothing.
      + reflexivity.
    - unfold ret. now rewrite append_nothing. }
  rewrite (bind_ok _ _ _ _ _ (Hmode s0)).
  unfold s0. cbn [errors warnings].
  set (s1 := mkValidator (errors self) ((warnings self ++ text_warnings f content) ++ mode_w)).
  unfold bind at 1, lift at 1. cbn [py_contains].
  unfold mapping_at in Hm. unfold dict_has at 1.
  destruct (dict_lookup entries "blueprint") as [v|] eqn:Hb.
  - subst v. cbv iota.
    rewrite (bind_ok _ _ s1 (dict_has m "input") s1).
    2:{ unfold bind, lift. cbn [py_getitem]. now rewrite Hb. }
    unfold mapping_at in Hi. unfold dict_has.
    destruct (dict_lookup m "input") as [v|] eqn:Hin.
    + subst v. cbv iota.
      unfold bind at 1, lift at 1. cbn [py_getitem]. rewrite Hb.
      unfold bind at 1, lift at 1. cbn [py_getitem]. rewrite Hin.
      unfold bind at 1, lift at 1. cbn [py_items]. cbv zeta.
      rewrite filter_lacks_default. fold (inputs_without_defaults items).
      destruct (inputs_without_defaults items) as [|x names] eqn:Hnames.
      * unfold ret. unfold s1. now rewrite (app_nil_r mode_w), <- !app_assoc.
      * unfold py_join. rewrite Hshown. unfold bind, lift, add_warning.
        unfold s1. cbn [errors warnings]. unfold summary_warning.
        now rewrite <- !app_assoc.
    + injection Hi as <-. cbv iota. cbn [inputs_without_defaults filter map].
      unfold ret. unfold s1. now rewrite (app_nil_r mode_w), <- !app_assoc.
  - injection Hm as <-. cbv iota. cbn [dict_lookup] in Hi.
    injection Hi as <-. cbn [inputs_without_defaults filter map].
    cbv beta iota delta [bind ret].
    unfold s1. now rewrite (app_nil_r mode_w), <- !app_assoc.
Qed.

Lemma check_tree_mode_step f entries m s :
  dict_lookup entries "blueprint" = Some (VDict m) ->
  exists mode_w,
    check_tree f (VDict entries) s =
    (has_input <- (meta <- lift (py_getitem (VDict entries) "blueprint") ;;
                   lift (py_contains "input" meta)) ;;
     if has_input then
       meta <- lift (py_getitem (VDict entries) "blueprint") ;;
       inputs <- lift (py_getitem meta "input") ;;
       items <- lift (py_items inputs) ;;
       match inputs_without_defaults items with
       | [] => ret tt
       | _ :: _ =>
           preview <- lift (py_join ", " (firstn 3 (inputs_without_defaults items))) ;;
           add_warning f
             (PyStr.str_of_int (Z.of_nat (List.length (inputs_without_defaults items)))
              ++ " input(s) without default values: "
              ++ (if (3 <? Z.of_nat (List.length (inputs_without_defaults items)))%Z
                  then (preview ++ "...")%string else preview)) None
       end
     else ret tt)
      (mkValidator (errors s) (warnings s ++ mode_w)).
Proof.
  intros Hb.
  exists (if eq_str (match dict_lookup m "domain" with Some v => v | None => VNone end)
                    "automation" && negb (dict_has entries "mode")
          then [mode_warning f] else []).
  unfold check_tree.
  replace (truthy (VDict entries) && is_dict (VDict entries)) with true
    by (destruct entries; [discriminate Hb | reflexivity]).
  cbv iota. unfold bind at 1, lift at 1. cbn [py_get]. rewrite Hb.
  unfold bind at 1, lift at 1. cbn [py_get].
  set (domain := match dict_lookup m "domain" with Some v => v | None => VNone end).
  assert (Hmode :
    (if eq_str domain "automation" then
       has_mode <- lift (py_contains "mode" (VDict entries)) ;;
       if negb has_mode then
         add_warning f ("Consider setting " ++ dquote ++ "mode" ++ dquote
                        ++ " for automation (e.g., restart, single, parallel)") None
       else ret tt
     else ret tt) s
    = (Ok tt, mkValidator (errors s)
                (warnings s ++ (if eq_str domain "automation" && negb (dict_has entries "mode")
                                then [mode_warning f] else [])))).
  { destruct (eq_str domain "automation"); cbn [andb].
    - unfold bind, lift, py_contains. destruct (dict_has entries "mode"); cbn [negb].
      + unfold ret. now rewrite append_nothing.
      + reflexivity.
    - unfold ret. now rewrite append_nothing. }
  rewrite (bind_ok _ _ _ _ _ Hmode).
  unfold bind at 1, lift at 1. cbn [py_contains].
  unfold dict_has at 1. rewrite Hb. cbv iota.
  unfold inputs_without_defaults, bind, lift. cbn [py_getitem py_contains].
  rewrite Hb. cbn [py_contains py_getitem]. unfold dict_has, ret.
  destruct (dict_lookup m "input") as [v|]; [|reflexivity]. cbv iota.
  destruct v; try reflexivity.
  cbn [py_items]. now rewrite filter_lacks_default.
Qed.

(** X11: where the checks on the tree raise.  For a root mapping, the
    heuristic pass raises [AttributeError] when the value at [blueprint] is
    not a mapping (the warnings of the text are recorded, nothing else) and
    when the value at [blueprint.input] is not a mapping; it raises
    [TypeError] when one of the first three inputs without default has a name
    that is not a string. *)
Theorem heuristic_tree_raises :
  forall f entries content self,
    (forall v,
        dict_lookup entries "blueprint" = Some v -> is_dict v = false ->
        exists dwt,
          check_common_mistakes f VNone content new_validator = (Ok tt, mkValidator [] dwt)
          /\ check_common_mistakes f (VDict entries) content self
             = (Raise AttributeError, mkValidator (errors self) (warnings self ++ dwt)))
    /\ (forall m v,
           dict_lookup entries "blueprint" = Some (VDict m) ->
           dict_lookup m "input" = Some v -> is_dict v = false ->
           fst (check_common_mistakes f (VDict entries) content self) = Raise AttributeError)
    /\ (forall m items,
           dict_lookup entries "blueprint" = Some (VDict m) ->
           dict_lookup m "input" = Some (VDict items) ->
           strs_of (firstn 3 (inputs_without_defaults items)) = Raise TypeError ->
           fst (check_common_mistakes f (VDict entries) content self) = Raise TypeError).
Proof.
  intros f entries content self. split; [|split].
  - intros v Hb Hv. exists (text_warnings f content). split.
    { rewrite check_common_mistakes_exact. reflexivity. }
    rewrite check_common_mistakes_exact. unfold check_tree.
    replace (truthy (VDict entries) && is_dict (VDict entries)) with true
      by (destruct entries; [discriminate Hb | reflexivity]).
    cbv iota. unfold bind at 1, lift at 1. cbn [py_get]. rewrite Hb.
    unfold bind at 1, lift at 1.
    destruct v; try discriminate Hv; reflexivity.
  - intros m v Hb Hin Hv. rewrite check_common_mistakes_exact.
    destruct (check_tree_mode_step f entries m
                (mkValidator (errors self) (warnings self ++ text_warnings f content)) Hb)
      as [mode_w ->].
    unfold bind, lift. cbn [py_getitem py_contains]. rewrite Hb.
    cbn [py_getitem py_contains]. unfold dict_has. rewrite Hin.
    cbv iota. cbn [py_getitem]. rewrite ?Hin.
    destruct v; try discriminate Hv; reflexivity.
  - intros m items Hb Hin Hs. rewrite check_common_mistakes_exact.
    destruct (check_tree_mode_step f entries m
                (mkValidator (errors self) (warnings self ++ text_warnings f content)) Hb)
      as [mode_w ->].
    unfold bind, lift. cbn [py_getitem py_contains]. rewrite Hb.
    cbn [py_getitem py_contains]. unfold dict_has. rewrite Hin.
    cbv iota. cbn [py_getitem]. rewrite ?Hin. cbn [py_items].
    destruct (inputs_without_defaults items) as [|x names] eqn:Hn.
    + cbn in Hs. discriminate Hs.
    + unfold py_join. now rewrite Hs.
Qed.

(** * Further properties of the entry points *)

(** ** Diagnostics are only appended *)

Lemma appends_ret {A : Type} (a : A) : appends (ret a).
Proof.
  intros self. exists [], []. unfold ret. cbn [snd]. now rewrite !app_nil_r, validator_eta.
Qed.

Lemma appends_lift {A : Type} (o : outcome A) : appends (lift o).
Proof.
  intros self. exists [], []. unfold lift. cbn [snd]. now rewrite !app_nil_r, validator_eta.
Qed.

Lemma appends_add_error f msg ln : appends (add_error f msg ln).
Proof.
  intros self. exists [mkValidationError f msg ln], []. unfold add_error. cbn [snd].
  now rewrite app_nil_r.
Qed.

Lemma appends_add_warning f msg ln : appends (add_warning f msg ln).
Proof.
  intros self. exists [], [mkValidationError f msg ln]. unfold add_warning. cbn [snd].
  now rewrite app_nil_r.
Qed.

Lemma appends_bind {A B : Type} (m : M A) (k : A -> M B) :
  appends m -> (forall a, appends (k a)) -> appends (bind m k).
Proof.
  intros Hm Hk self. destruct (Hm self) as [de1 [dw1 E1]].
  unfold bind. destruct (m self) as [[a|e] s1]; cbn [snd] in E1; subst s1.
  - destruct (Hk a (mkValidator (errors self ++ de1) (warnings self ++ dw1)))
      as [de2 [dw2 E2]].
    exists (de1 ++ de2), (dw1 ++ dw2). rewrite E2. cbn [errors warnings].
    now rewrite !app_assoc.
  - now exists de1, dw1.
Qed.

Lemma appends_for_each {A : Type} (xs : list A) (body : A -> M unit) :
  (forall x, appends (body x)) -> appends (for_each xs body).
Proof.
  intros H. induction xs as [|x xs IH]; cbn [for_each].
  - apply appends_ret.
  - apply appends_bind; [apply H | intros _; exact IH].
Qed.

Lemma appends_check_common_mistakes f blueprint content :
  appends (check_common_mistakes f blueprint content).
Proof.
  intros self. rewrite check_common_mistakes_exact.
  destruct (check_tree_warns_only f blueprint
              (mkValidator (errors self) (warnings self ++ text_warnings f content)))
    as [dw [E _]].
  exists [], (text_warnings f content ++ dw). rewrite E. cbn [errors warnings].
  now rewrite app_nil_r, app_assoc.
Qed.

Ltac appends_tac :=
  repeat first
    [ apply appends_ret
    | apply appends_lift
    | apply appends_add_error
    | apply appends_add_warning
    | apply appends_check_common_mistakes
    | apply appends_bind; [|intros]
    | apply appends_for_each; intros
    | match goal with |- appends (if ?b then _ else _) => destruct b end
    | match goal with |- appends (match ?x with _ => _ end) => destruct x end ].

Lemma appends_validate_blueprint str_of_object file_path :
  appends (validate_blueprint str_of_object file_path).
Proof.
  unfold validate_blueprint, validate_structure, validate_metadata, validate_inputs,
    validate_triggers, validate_actions.
  appends_tac.
Qed.

(** X12: whatever the batch holds, and whether [validate_all] returns or an
    exception ends it, the diagnostics the validator held before are still
    there afterwards, in the same order and in front of the new ones: nothing
    is removed, merged or reordered. *)
Theorem validate_all_appends :
  forall str_of_object blueprints_dir self,
    exists de dw,
      snd (validate_all str_of_object blueprints_dir self)
      = mkValidator (errors self ++ de) (warnings self ++ dw).
Proof.
  intros str dir. change (appends (validate_all str dir)).
  unfold validate_all. destruct dir as [d|].
  - destruct (glob_yaml d ++ glob_yml d) as [|x files].
    + apply appends_ret.
    + apply appends_bind.
      * apply appends_for_each. intros y. apply appends_validate_blueprint.
      * intros _ [es ws]. exists [], []. unfold print_results. cbn [errors warnings].
        rewrite !app_nil_r. destruct es, ws; reflexivity.
  - apply appends_bind; [apply appends_add_error | intros _; apply appends_ret].
Qed.

(** X13: started on a fresh validator, [validate_all] returns [True] exactly
    when no error has been recorded; warnings do not count. *)
Theorem validate_all_verdict :
  forall str_of_object blueprints_dir ok s,
    validate_all str_of_object blueprints_dir new_validator = (Ok ok, s) ->
    (ok = true <-> errors s = []).
Proof.
  intros str dir ok s H. unfold validate_all in H. destruct dir as [d|].
  - destruct (glob_yaml d ++ glob_yml d) as [|x files].
    + injection H as <- <-. split; reflexivity.
    + unfold bind in H.
      destruct (for_each (x :: files) (validate_blueprint str) new_validator)
        as [[[]|e] s1]; [|discriminate H].
      unfold print_results in H.
      destruct (errors s1) as [|e1 es] eqn:He; destruct (warnings s1) eqn:Hw;
        injection H as <- <-; rewrite He; cbn; split; congruence.
  - cbn in H. injection H as <- <-. cbn. split; discriminate.
Qed.

(** ** Documents on which validation returns *)








(** ** Rendering and the command line *)

(** X15: every warning of the heuristic pass renders, through [__str__], as
    the file name, a colon and the line number when the warning has one, and
    the message; the location is never dropped, because the line numbers the
    pass records start at 1. *)
Theorem heuristic_warnings_render :
  forall f blueprint content self,
    exists dw,
      snd (check_common_mistakes f blueprint content self)
      = mkValidator (errors self) (warnings self ++ dw)
      /\ Forall (fun d =>
                   ValidationError_str d
                   = match line d with
                     | Some n => (f ++ ":" ++ PyStr.str_of_int n ++ ": " ++ message d)%string
                     | None => (f ++ ": " ++ message d)%string
                     end) dw.
Proof.
  intros f blueprint content self.
  rewrite check_common_mistakes_exact.
  destruct (check_tree_located f blueprint
              (mkValidator (errors self) (warnings self ++ text_warnings f content)))
    as [dw [E F]].
  exists (text_warnings f content ++ dw). split.
  - rewrite E. cbn [errors warnings]. now rewrite app_assoc.
  - apply Forall_app. split.
    + unfold text_warnings. apply Forall_app. split.
      * destruct (PyStr.contains TAB content); repeat constructor.
      * apply Forall_forall. intros d Hd. apply lines_warnings_located in Hd.
        destruct Hd as [Hf [n [Hl Hn]]]. unfold ValidationError_str.
        rewrite Hl, Hf.
        replace (n =? 0)%Z with false by (symmetry; apply Z.eqb_neq; lia).
        reflexivity.
    + eapply Forall_impl; [|exact F]. intros d [Hf Hl].
      unfold ValidationError_str. now rewrite Hl, Hf.
Qed.


(** ** A document's diagnostics do not depend on the batch *)

Lemma independent_ret {A : Type} (a : A) : independent (ret a).
Proof.
  exists (Ok a), [], []. intros self. unfold ret. now rewrite !app_nil_r, validator_eta.
Qed.

Lemma independent_lift {A : Type} (o : outcome A) : independent (lift o).
Proof.
  exists o, [], []. intros self. unfold lift. now rewrite !app_nil_r, validator_eta.
Qed.

Lemma independent_add_error f msg ln : independent (add_error f msg ln).
Proof.
  exists (Ok tt), [mkValidationError f msg ln], []. intros self. unfold add_error.
  now rewrite app_nil_r.
Qed.

Lemma independent_add_warning f msg ln : independent (add_warning f msg ln).
Proof.
  exists (Ok tt), [], [mkValidationError f msg ln]. intros self. unfold add_warning.
  now rewrite app_nil_r.
Qed.

Lemma independent_bind {A B : Type} (m : M A) (k : A -> M B) :
  independent m -> (forall a, independent (k a)) -> independent (bind m k).
Proof.
  intros [r1 [de1 [dw1 E1]]] Hk. destruct r1 as [a|e].
  - destruct (Hk a) as [r2 [de2 [dw2 E2]]].
    exists r2, (de1 ++ de2), (dw1 ++ dw2). intros self.
    rewrite (bind_ok _ _ _ _ _ (E1 self)), E2. cbn [errors warnings].
    now rewrite !app_assoc.
  - exists (Raise e), de1, dw1. intros self. now rewrite (bind_raise _ _ _ _ _ (E1 self)).
Qed.

Lemma independent_for_each {A : Type} (xs : list A) (body : A -> M unit) :
  (forall x, independent (body x)) -> independent (for_each xs body).
Proof.
  intros H. induction xs as [|x xs IH]; cbn [for_each].
  - apply independent_ret.
  - apply independent_bind; [apply H | intros _; exact IH].
Qed.

Ltac independent_tac :=
  repeat first
    [ apply independent_ret
    | apply independent_lift
    | apply independent_add_error
    | apply independent_add_warning
    | apply independent_bind; [|intros]
    | apply independent_for_each; intros
    | match goal with |- independent (if ?b then _ else _) => destruct b end
    | match goal with |- independent (match ?x with _ => _ end) => destruct x end
    | progress cbv zeta ].

Lemma independent_check_common_mistakes f blueprint content :
  independent (check_common_mistakes f blueprint content).
Proof.
  assert (Ht : independent (check_tree f blueprint)).
  { unfold check_tree. independent_tac. }
  destruct Ht as [r [de [dw E]]].
  exists r, de, (text_warnings f content ++ dw). intros self.
  rewrite check_common_mistakes_exact, E. cbn [errors warnings].
  now rewrite app_assoc.
Qed.

(** X17: what a document contributes does not depend on the documents
    validated before it: for every file there are an outcome (return or
    exception) and two lists of diagnostics such that, on whatever validator
    [validate_blueprint] starts, it ends with that outcome and with those
    lists appended to the validator's. *)
Theorem validate_blueprint_independent :
  forall str_of_object file_path,
    exists r de dw, forall self,
      validate_blueprint str_of_object file_path self
      = (r, mkValidator (errors self ++ de) (warnings self ++ dw)).
Proof.
  intros str file_path. change (independent (validate_blueprint str file_path)).
  unfold validate_blueprint, validate_structure, validate_metadata, validate_inputs,
    validate_triggers, validate_actions.
  repeat first
    [ apply independent_check_common_mistakes
    | apply independent_ret
    | apply independent_lift
    | apply independent_add_error
    | apply independent_add_warning
    | apply independent_bind; [|intros]
    | apply independent_for_each; intros
    | match goal with |- independent (if ?b then _ else _) => destruct b end
    | match goal with |- independent (match ?x with _ => _ end) => destruct x end ].
Qed.

(** ** Concrete instances of the further properties *)

Lemma falsy_root_one_error_witness :
  truthy VNone = false
  /\ exists dw,
       validate_blueprint sample_str_of_object
         (mkFile "blueprints/empty.yaml" (Loaded EmptyString VNone)) new_validator
       = (Ok tt, mkValidator ([] ++ [not_an_object "blueprints/empty.yaml"]) ([] ++ dw))
       /\ check_common_mistakes "blueprints/empty.yaml" VNone EmptyString new_validator
          = (Ok tt, mkValidator [] dw).
Proof.
  split; [reflexivity|].
  exact (falsy_root_one_error sample_str_of_object "blueprints/empty.yaml" EmptyString VNone
           new_validator eq_refl).
Defined.

Lemma validate_actions_cases_witness :
  is_list (VStr "x") = false
  /\ validate_actions "blueprints/b.yaml" (VStr "x") new_validator
     = (Ok tt, mkValidator
                 [mkValidationError "blueprints/b.yaml" "Actions must be an array" None] []).
Proof.
  split; [reflexivity|].
  exact (proj1 (validate_actions_cases "blueprints/b.yaml" new_validator) (VStr "x") eq_refl).
Defined.

Lemma condition_input_warning_per_line_witness :
  nth_error (PyStr.split_lines ("condition:" ++ LF ++ "  - condition: !input extra")) 1
  = Some "  - condition: !input extra"
  /\ exists dw,
       snd (check_common_mistakes "blueprints/b.yaml" VNone
              ("condition:" ++ LF ++ "  - condition: !input extra") new_validator)
       = mkValidator [] ([] ++ dw)
       /\ count (same_diagnostic (condition_input_warning "blueprints/b.yaml" 2)) dw = 1.
Proof.
  assert (H : nth_error (PyStr.split_lines
                           ("condition:" ++ LF ++ "  - condition: !input extra")) 1
              = Some "  - condition: !input extra") by reflexivity.
  split; [exact H|].
  exact (condition_input_warning_per_line "blueprints/b.yaml" VNone
           ("condition:" ++ LF ++ "  - condition: !input extra") 1
           "  - condition: !input extra" new_validator H).
Defined.

Lemma default_indentation_warning_witness :
  nth_error (PyStr.split_lines ("action:" ++ LF ++ "- choose:" ++ LF ++ "  default:")) 2
  = Some "  default:"
  /\ exists dw,
       snd (check_common_mistakes "blueprints/b.yaml" VNone
              ("action:" ++ LF ++ "- choose:" ++ LF ++ "  default:") new_validator)
       = mkValidator [] ([] ++ dw)
       /\ (count (indentation_warning_at "blueprints/b.yaml" 3) dw <= 1)%nat
       /\ (count (indentation_warning_at "blueprints/b.yaml" 3) dw = 1 <->
           PyStr.startswith (PyStr.strip "  default:") "default:" = true
           /\ exists j prev,
                (Nat.max 1 (2 - 49) <= j < 2)%nat
                /\ nth_error (PyStr.split_lines
                                ("action:" ++ LF ++ "- choose:" ++ LF ++ "  default:")) j
                   = Some prev
                /\ is_choose_line prev = true
                /\ (forall k p,
                       (j < k < 2)%nat ->
                       nth_error (PyStr.split_lines
                                    ("action:" ++ LF ++ "- choose:" ++ LF ++ "  default:")) k
                       = Some p ->
                       is_choose_line p = false)
                /\ indent_of "  default:" <> expected_default_indent prev).
Proof.
  assert (H : nth_error (PyStr.split_lines
                           ("action:" ++ LF ++ "- choose:" ++ LF ++ "  default:")) 2
              = Some "  default:") by reflexivity.
  split; [exact H|].
  exact (default_indentation_warning "blueprints/b.yaml" VNone
           ("action:" ++ LF ++ "- choose:" ++ LF ++ "  default:") 2 "  default:"
           new_validator H).
Defined.

Lemma heuristic_tree_checks_witness :
  sample_entries <> []
  /\ mapping_at sample_entries "blueprint" = VDict sample_meta
  /\ mapping_at sample_meta "input" = VDict sample_items
  /\ strs_of (firstn 3 (inputs_without_defaults sample_items)) = Ok ["target"]
  /\ exists dwt,
       check_common_mistakes "blueprints/b.yaml" VNone sample_text new_validator
       = (Ok tt, mkValidator [] dwt)
       /\ check_common_mistakes "blueprints/b.yaml" (VDict sample_entries) sample_text
            new_validator
          = (Ok tt,
             mkValidator []
               ([] ++ dwt ++ [mode_warning "blueprints/b.yaml"]
                ++ [summary_warning "blueprints/b.yaml" 1 ["target"]])).
Proof.
  assert (H1 : sample_entries <> []) by discriminate.
  split; [exact H1|]. split; [reflexivity|]. split; [reflexivity|]. split; [reflexivity|].
  exact (heuristic_tree_checks "blueprints/b.yaml" sample_entries sample_meta sample_items
           ["target"] sample_text new_validator H1 eq_refl eq_refl eq_refl).
Defined.

Lemma heuristic_tree_raises_witness :
  dict_lookup [(VStr "blueprint", VNone)] "blueprint" = Some VNone
  /\ is_dict VNone = false
  /\ exists dwt,
       check_common_mistakes "blueprints/b.yaml" VNone ("blueprint:" ++ LF) new_validator
       = (Ok tt, mkValidator [] dwt)
       /\ check_common_mistakes "blueprints/b.yaml" (VDict [(VStr "blueprint", VNone)])
            ("blueprint:" ++ LF) new_validator
          = (Raise AttributeError, mkValidator [] ([] ++ dwt)).
Proof.
  split; [reflexivity|]. split; [reflexivity|].
  exact (proj1 (heuristic_tree_raises "blueprints/b.yaml" [(VStr "blueprint", VNone)]
                  ("blueprint:" ++ LF) new_validator) VNone eq_refl eq_refl).
Defined.

Lemma validate_all_verdict_witness :
  validate_all sample_str_of_object
    (Some (mkDirectory
             [mkFile "blueprints/sample.yaml" (Loaded sample_text (VDict sample_entries))]
             [mkFile "blueprints/bad.yml" (YAMLError "could not find expected ':'" (Some (mkMark 4)))]))
    new_validator
  = (Ok false,
     mkValidator
       [mkValidationError "blueprints/bad.yml"
          "YAML syntax error: could not find expected ':'" (Some 5%Z)]
       [mode_warning "blueprints/sample.yaml";
        summary_warning "blueprints/sample.yaml" 1 ["target"]])
  /\ (false = true <->
      errors (mkValidator
                [mkValidationError "blueprints/bad.yml"
                   "YAML syntax error: could not find expected ':'" (Some 5%Z)]
                [mode_warning "blueprints/sample.yaml";
                 summary_warning "blueprints/sample.yaml" 1 ["target"]]) = []).
Proof.
  assert (H : validate_all sample_str_of_object
                (Some (mkDirectory
                         [mkFile "blueprints/sample.yaml"
                            (Loaded sample_text (VDict sample_entries))]
                         [mkFile "blueprints/bad.yml"
                            (YAMLError "could not find expected ':'" (Some (mkMark 4)))]))
                new_validator
              = (Ok false,
                 mkValidator
                   [mkValidationError "blueprints/bad.yml"
                      "YAML syntax error: could not find expected ':'" (Some 5%Z)]
                   [mode_warning "blueprints/sample.yaml";
                    summary_warning "blueprints/sample.yaml" 1 ["target"]]))
    by (vm_compute; reflexivity).
  split; [exact H|].
  exact (validate_all_verdict sample_str_of_object _ false _ H).
Defined.


Lemma validate_inputs_counts_witness :
  (forall e, In e [(VStr "action", VDict []); (VInt 3, VNone)] ->
             needs_warning e = true ->
             exists text, py_str sample_str_of_object (fst e) = Ok text)
  /\ exists de dw,
       validate_inputs sample_str_of_object "blueprints/b.yaml"
         (VDict [(VStr "action", VDict []); (VInt 3, VNone)]) new_validator
       = (Ok tt, mkValidator ([] ++ de) ([] ++ dw))
       /\ (List.length de
           = List.length (filter reserved_entry [(VStr "action", VDict []); (VInt 3, VNone)])
           /\ List.length dw
              = List.length (filter (definition_lacks "name")
                               [(VStr "action", VDict []); (VInt 3, VNone)])
                + List.length (filter (definition_lacks "selector")
                                 [(VStr "action", VDict []); (VInt 3, VNone)])
           /\ Forall (fun d =>
                        exists e, In e [(VStr "action", VDict []); (VInt 3, VNone)]
                                  /\ reserved_entry e = true
                                  /\ d = reserved_name sample_str_of_object
                                           "blueprints/b.yaml" (fst e)) de).
Proof.
  assert (H : forall e, In e [(VStr "action", VDict []); (VInt 3, VNone)] ->
                        needs_warning e = true ->
                        exists text, py_str sample_str_of_object (fst e) = Ok text).
  { intros e [<-|[<-|[]]] Hw; [exists "action"; reflexivity | discriminate Hw]. }
  split; [exact H|].
  exact (validate_inputs_counts sample_str_of_object "blueprints/b.yaml"
           (VDict [(VStr "action", VDict []); (VInt 3, VNone)]) new_validator H).
Defined.
